(** * vault-metrics-ai: the metrics-to-narrative pipeline of [main.go]

    A shallow embedding of [src/main.go].  Go's [[]byte] and [string] are
    both sequences of bytes and are modelled by [list byte]; [len] is an
    [int], modelled in [Z].  The standard-library functions the program
    calls on byte slices ([bytes.Split], [bytes.Join], [bytes.Contains])
    are written out; the process environment, the network, the URL check of
    [http.NewRequest] and the JSON codec are the fields of a [platform]. *)

From Stdlib Require Import String Strings.Byte Numbers.DecimalString.
From Stdlib Require Import List ZArith Lia Bool.
Import ListNotations.
Local Open Scope Z_scope.

(** ** Byte strings *)

Definition bytes := list byte.

(** A Go string literal. *)
Definition bs (s : string) : bytes := list_byte_of_string s.

(** [len(s)]. *)
Definition len {A} (s : list A) : Z := Z.of_nat (length s).

(** The line separator, ["\n"]. *)
Definition nl : byte := x0a.

(** [[]byte("NaN")]. *)
Definition NaN : bytes := [x4e; x61; x4e].

(** [bytes.HasPrefix(s, prefix)]. *)
Fixpoint HasPrefix (s prefix : bytes) {struct prefix} : bool :=
  match prefix, s with
  | [], _ => true
  | _ :: _, [] => false
  | c :: prefix', d :: s' => Byte.eqb d c && HasPrefix s' prefix'
  end.

(** [bytes.Index(s, sep)]: the index of the first instance of [sep] in [s],
    or [-1] when there is none. *)
Fixpoint Index (s sep : bytes) {struct s} : Z :=
  if HasPrefix s sep then 0
  else match s with
       | [] => -1
       | _ :: s' => let i := Index s' sep in if i <? 0 then -1 else i + 1
       end.

(** [bytes.Contains(b, subslice)], which is [Index(b, subslice) != -1]. *)
Definition Contains (b subslice : bytes) : bool :=
  negb (Index b subslice =? -1).

(** [bytes.Split(s, sep)] for a separator [sep] of exactly one byte, the
    only way the program calls it: [s] is cut at every occurrence of the
    separator, and an [s] without one comes back as the only element. *)
Fixpoint Split (s : bytes) (sep : byte) : list bytes :=
  match s with
  | [] => [[]]
  | b :: s' =>
      if Byte.eqb b sep then [] :: Split s' sep
      else match Split s' sep with
           | l :: ls => (b :: l) :: ls
           | [] => [[b]]
           end
  end.

(** [bytes.Join(s, sep)]. *)
Fixpoint Join (s : list bytes) (sep : bytes) : bytes :=
  match s with
  | [] => []
  | l :: rest =>
      match rest with
      | [] => l
      | _ :: _ => l ++ sep ++ Join rest sep
      end
  end.

(** ** The sanitizer: [filterNaNMetrics] (main.go, lines 50-59) *)

(** The loop of lines 53-57: [filtered] grows by the lines without the
    token, in the order of [lines]. *)
Fixpoint keepLines (lines : list bytes) : list bytes :=
  match lines with
  | [] => []
  | line :: rest =>
      if negb (Contains line NaN) then line :: keepLines rest
      else keepLines rest
  end.

Definition filterNaNMetrics (metrics : bytes) : bytes :=
  let lines := Split metrics nl in
  let filtered := keepLines lines in
  Join filtered [nl].

(** ** The partitioner: lines 134-140 of [main] *)

Definition threshold : Z := 5000.

(** [mid := n / 2] on the line count. *)
Definition mid (lines : list bytes) : nat := (length lines / 2)%nat.

(** [bytes.Join(lines[:mid], "\n")]; [mid] never exceeds [len(lines)], so
    the slice expressions do not panic. *)
Definition firstHalf (filteredMetrics : bytes) : bytes :=
  let lines := Split filteredMetrics nl in
  Join (firstn (mid lines) lines) [nl].

(** [bytes.Join(lines[mid:], "\n")]. *)
Definition secondHalf (filteredMetrics : bytes) : bytes :=
  let lines := Split filteredMetrics nl in
  Join (skipn (mid lines) lines) [nl].

(** The chunks [main] hands to [analyzeWithLLM], in call order. *)
Definition partition (filteredMetrics : bytes) : list bytes :=
  if threshold <? len filteredMetrics
  then [firstHalf filteredMetrics; secondHalf filteredMetrics]
  else [filteredMetrics].

(** ** The process and its surroundings *)

(** [s == ""]. *)
Definition isEmpty (s : bytes) : bool :=
  match s with [] => true | _ :: _ => false end.

(** An [error] is the text its [Error()] method returns. *)
Definition error := bytes.

(** The part of an [*http.Request] the program sets. *)
Record request := {
  Method : bytes;
  URL : bytes;
  Header : list (bytes * bytes);
  Body : bytes
}.

(** The part of an [*http.Response] the program reads; [Data] and
    [ReadErr] are the two results of [ioutil.ReadAll(resp.Body)]. *)
Record response := {
  StatusCode : Z;
  Status : bytes;
  Data : bytes;
  ReadErr : option error
}.

(** What [client.Do] returns: an error, or a response. *)
Inductive transport :=
| TransportError (err : error)
| Responded (resp : response).

(** The map literal of lines 70-77. *)
Record payload := {
  model : bytes;
  prompt : bytes;
  max_tokens : Z;
  metadata : list (bytes * bytes)
}.

(** The anonymous struct of lines 104-110. *)
Record choice := { Text : bytes }.

Record llmResp := {
  Choices : list choice;
  Result : bytes
}.

(** What the program takes from outside: the environment, the standard
    library's URL check and JSON codec, and the network.  [Getenv] is
    [os.Getenv], empty for an unset variable; [urlError method url] is the
    error of [http.NewRequest], if any; [roundTrip earlier req] is the
    answer [client.Do] gets for [req] after the requests [earlier];
    [Unmarshal data] is the decoded struct when [json.Unmarshal] returns a
    nil error. *)
Record platform := {
  Getenv : bytes -> bytes;
  urlError : bytes -> bytes -> option error;
  roundTrip : list request -> request -> transport;
  Marshal : payload -> bytes;
  Unmarshal : bytes -> option llmResp
}.

(** What the process has done so far: the requests it sent and the writes
    to its two output streams, oldest first. *)
Record world := {
  sent : list request;
  stdout : list bytes;
  stderr : list bytes
}.

(** The process at its start. *)
Definition init : world := {| sent := []; stdout := []; stderr := [] |}.

(** A step either goes on with a value or ends the process ([os.Exit]). *)
Inductive res (A : Type) :=
| Done (a : A)
| Exited (code : Z).
Arguments Done {A} a.
Arguments Exited {A} code.

Definition proc (A : Type) : Type := world -> res A * world.

Definition ret {A} (a : A) : proc A := fun w => (Done a, w).

Definition bind {A B} (c : proc A) (k : A -> proc B) : proc B :=
  fun w =>
    match c w with
    | (Done a, w') => k a w'
    | (Exited code, w') => (Exited code, w')
    end.

Notation "x <- c ;; k" := (bind c (fun x => k))
  (at level 61, c at next level, right associativity).
Notation "' pat <- c ;; k" :=
  (bind c (fun x => match x with pat => k end))
  (at level 61, pat pattern, c at next level, right associativity).
Notation "c ;;; k" := (bind c (fun _ => k))
  (at level 61, right associativity).

(** The world after one more request, write to standard output, or write
    to standard error. *)
Definition sending (w : world) (req : request) : world :=
  {| sent := sent w ++ [req]; stdout := stdout w; stderr := stderr w |}.

Definition printing (w : world) (s : bytes) : world :=
  {| sent := sent w; stdout := stdout w ++ [s]; stderr := stderr w |}.

Definition complaining (w : world) (s : bytes) : world :=
  {| sent := sent w; stdout := stdout w; stderr := stderr w ++ [s] |}.

(** [os.Exit(code)]. *)
Definition os_Exit {A} (code : Z) : proc A := fun w => (Exited code, w).

(** [fmt.Print(s)] of one string. *)
Definition fmt_Print (s : bytes) : proc unit :=
  fun w => (Done tt, printing w s).

(** The text of [fmt.Println(operands...)]: a space between operands and a
    newline at the end. *)
Definition sprintln (operands : list bytes) : bytes :=
  Join operands (bs " ") ++ [nl].

Definition fmt_Println (operands : list bytes) : proc unit :=
  fmt_Print (sprintln operands).

(** [fmt.Fprintln(os.Stderr, operands...)]. *)
Definition fmt_Fprintln_Stderr (operands : list bytes) : proc unit :=
  fun w => (Done tt, complaining w (sprintln operands)).

(** An [int] as [fmt] prints it. *)
Definition itoa (n : Z) : bytes := bs (NilZero.string_of_int (Z.to_int n)).

(** [http.NewRequest(method, url, body)]. *)
Definition NewRequest (P : platform) (method url body : bytes)
  : request + error :=
  match urlError P method url with
  | Some err => inr err
  | None => inl {| Method := method; URL := url; Header := []; Body := body |}
  end.

Fixpoint bytes_eqb (a b : bytes) : bool :=
  match a, b with
  | [], [] => true
  | x :: a', y :: b' => Byte.eqb x y && bytes_eqb a' b'
  | _, _ => false
  end.

(** [req.Header.Set(key, value)]: replaces what the key had. *)
Definition Header_Set (req : request) (key value : bytes) : request :=
  {| Method := Method req; URL := URL req;
     Header := filter (fun kv => negb (bytes_eqb (fst kv) key)) (Header req)
               ++ [(key, value)];
     Body := Body req |}.

(** [client.Do(req)]. *)
Definition Do (P : platform) (req : request) : proc transport :=
  fun w => (Done (roundTrip P (sent w) req), sending w req).

Section Program.
Variable P : platform.

(** Lines 12-18. *)
Definition getVaultMetricsURL : bytes :=
  let vaultAddr := Getenv P (bs "VAULT_ADDR") in
  let vaultAddr :=
    if isEmpty vaultAddr then bs "http://127.0.0.1:8200" else vaultAddr in
  vaultAddr ++ bs "/v1/sys/metrics?format=prometheus".

(** Lines 20-27. *)
Definition getLLMAPIURL : proc bytes :=
  let llmURL := Getenv P (bs "LLM_URL") in
  (if isEmpty llmURL
   then fmt_Fprintln_Stderr [bs "LLM_URL environment variable not set"] ;;;
        os_Exit 1
   else ret tt) ;;;
  ret llmURL.

(** Lines 29-48; a Go [([]byte, error)] is a pair. *)
Definition fetchVaultMetrics : proc (bytes * option error) :=
  let vaultToken := Getenv P (bs "VAULT_TOKEN") in
  if isEmpty vaultToken
  then ret ([], Some (bs "VAULT_TOKEN environment variable not set"))
  else
    match NewRequest P (bs "GET") getVaultMetricsURL [] with
    | inr err => ret ([], Some err)
    | inl req =>
        let req := Header_Set req (bs "X-Vault-Token") vaultToken in
        t <- Do P req ;;
        match t with
        | TransportError err => ret ([], Some err)
        | Responded resp => ret (Data resp, ReadErr resp)
        end
    end.

(** The format string of lines 62-69, up to its [%s]. *)
Definition promptTemplate : bytes := bs
"Analyze the following Vault server metrics for a human reader.
- Summarize the overall health and status in clear, simple language.
- Highlight any anomalies, errors, or warnings.
- Suggest possible causes and recommended actions if issues are found.
- Make the summary concise, actionable, and easy to understand for someone without deep technical knowledge.

Metrics:
".

(** Lines 70-77. *)
Definition llmPayload (metrics : bytes) : payload :=
  {| model := bs "qwen2.5-32b-instruct";
     prompt := promptTemplate ++ metrics;
     max_tokens := 20000;
     metadata := [(bs "trace_name", bs "team_bot")] |}.

(** Lines 103-121: the narration taken from a body read with status 200. *)
Definition extractSummary (result : bytes) : bytes :=
  match Unmarshal P result with
  | Some llmResp =>
      if (0 <? len (Choices llmResp))
         && negb (isEmpty (Text (nth 0 (Choices llmResp) {| Text := [] |})))
      then Text (nth 0 (Choices llmResp) {| Text := [] |})
      else if negb (isEmpty (Result llmResp))
      then Result llmResp
      else result
  | None => result
  end.

(** Lines 61-122. *)
Definition analyzeWithLLM (metrics logs : bytes)
  : proc (bytes * option error) :=
  let body := Marshal P (llmPayload metrics) in
  url <- getLLMAPIURL ;;
  match NewRequest P (bs "POST") url body with
  | inr err => ret ([], Some err)
  | inl req =>
      let llmToken := Getenv P (bs "LLM_TOKEN") in
      if isEmpty llmToken
      then ret ([], Some (bs "LLM_TOKEN environment variable not set"))
      else
        let req := Header_Set req (bs "Authorization")
                              (bs "Bearer " ++ llmToken) in
        let req := Header_Set req (bs "Content-Type")
                              (bs "application/json") in
        t <- Do P req ;;
        match t with
        | TransportError err => ret ([], Some err)
        | Responded resp =>
            let result := Data resp in
            if negb (StatusCode resp =? 200)
            then ret ([], Some (bs "LLM API error: " ++ Status resp
                                ++ [nl] ++ result))
            else ret (extractSummary result, None)
        end
  end.

(** The [if err != nil { fmt.Println(label, err); os.Exit(1) }] that
    follows every call in [main]. *)
Definition exitOnError (label : bytes) (err : option error) : proc unit :=
  match err with
  | Some e => fmt_Println [label; e] ;;; os_Exit 1
  | None => ret tt
  end.

(** Lines 135-159, the branch of [main] for a payload over the
    threshold. *)
Definition splitBranch (filteredMetrics : bytes) : proc unit :=
  fmt_Print (bs "analysis data for first half..." ++ [nl]) ;;;
  '(analysis1, err) <- analyzeWithLLM (firstHalf filteredMetrics) [] ;;
  exitOnError (bs "Error analyzing first half with LLM:") err ;;;
  fmt_Print (bs "analysis data for second half..." ++ [nl]) ;;;
  '(analysis2, err) <- analyzeWithLLM (secondHalf filteredMetrics) [] ;;
  exitOnError (bs "Error analyzing second half with LLM:") err ;;;
  fmt_Println [bs "LLM Analysis Result (First Half):"] ;;;
  fmt_Println [analysis1] ;;;
  fmt_Println [[nl] ++ bs "LLM Analysis Result (Second Half):"] ;;;
  fmt_Println [analysis2].

(** Lines 161-168, the other branch. *)
Definition singleBranch (filteredMetrics : bytes) : proc unit :=
  fmt_Print (bs "analysis data for all metrics..." ++ [nl]) ;;;
  '(analysis, err) <- analyzeWithLLM filteredMetrics [] ;;
  exitOnError (bs "Error analyzing metrics with LLM:") err ;;;
  fmt_Println [bs "LLM Analysis Result:"] ;;;
  fmt_Println [analysis].

(** Lines 124-170. *)
Definition main : proc unit :=
  '(metrics, err) <- fetchVaultMetrics ;;
  fmt_Print (bs "Fetching Vault metrics..." ++ [nl]) ;;;
  exitOnError (bs "Error fetching metrics:") err ;;;
  let filteredMetrics := filterNaNMetrics metrics in
  fmt_Println [bs "len(filteredMetrics):"; itoa (len filteredMetrics)] ;;;
  if threshold <? len filteredMetrics
  then splitBranch filteredMetrics
  else singleBranch filteredMetrics.

End Program.

(** ** Names for what the run sends *)

(** The request [fetchVaultMetrics] hands to [client.Do]. *)
Definition vaultRequest (P : platform) : request :=
  Header_Set {| Method := bs "GET"; URL := getVaultMetricsURL P;
                Header := []; Body := [] |}
             (bs "X-Vault-Token") (Getenv P (bs "VAULT_TOKEN")).

(** The request [analyzeWithLLM metrics] hands to [client.Do]. *)
Definition llmRequest (P : platform) (metrics : bytes) : request :=
  Header_Set
    (Header_Set {| Method := bs "POST"; URL := Getenv P (bs "LLM_URL");
                   Header := []; Body := Marshal P (llmPayload metrics) |}
                (bs "Authorization")
                (bs "Bearer " ++ Getenv P (bs "LLM_TOKEN")))
    (bs "Content-Type") (bs "application/json").

(** What [fetchVaultMetrics] returns for an answer of [client.Do]. *)
Definition fetched (t : transport) : bytes * option error :=
  match t with
  | TransportError err => ([], Some err)
  | Responded resp => (Data resp, ReadErr resp)
  end.

(** What [analyzeWithLLM] returns for an answer of [client.Do]. *)
Definition narrated (P : platform) (t : transport) : bytes * option error :=
  match t with
  | TransportError err => ([], Some err)
  | Responded resp =>
      if negb (StatusCode resp =? 200)
      then ([], Some (bs "LLM API error: " ++ Status resp
                      ++ [nl] ++ Data resp))
      else (extractSummary P (Data resp), None)
  end.

(** The narration requests are the POST requests. *)
Definition isNarration (req : request) : bool :=
  bytes_eqb (Method req) (bs "POST").

(** Every narration request among [reqs] was answered with status 200. *)
Definition allNarrated (P : platform) (reqs : list request) : Prop :=
  forall i req,
    nth_error reqs i = Some req -> isNarration req = true ->
    exists resp,
      roundTrip P (firstn i reqs) req = Responded resp /\
      StatusCode resp = 200.

(** The world in which [main] reaches the [if] of line 134, [w] being the
    world after the fetch. *)
Definition atBranch (w : world) (filteredMetrics : bytes) : world :=
  printing (printing w (bs "Fetching Vault metrics..." ++ [nl]))
    (sprintln [bs "len(filteredMetrics):"; itoa (len filteredMetrics)]).

(** The world in which [main] makes its first narration call for a payload
    that is split. *)
Definition atFirstHalf (w : world) (filteredMetrics : bytes) : world :=
  printing (atBranch w filteredMetrics)
    (bs "analysis data for first half..." ++ [nl]).

(** What the branch for two chunks does after a first call that returned
    [analysis1]: lines 149-159, by the outcome of the second call. *)
Definition secondCall (P : platform) (fm analysis1 : bytes) (w : world)
  : res unit * world :=
  match analyzeWithLLM P (secondHalf fm) []
          (printing w (bs "analysis data for second half..." ++ [nl])) with
  | (Exited code, w') => (Exited code, w')
  | (Done (_, Some e), w') =>
      (Exited 1,
       printing w'
         (sprintln [bs "Error analyzing second half with LLM:"; e]))
  | (Done (analysis2, None), w') =>
      (Done tt,
       printing
         (printing
            (printing
               (printing w'
                  (sprintln [bs "LLM Analysis Result (First Half):"]))
               (sprintln [analysis1]))
            (sprintln [[nl] ++ bs "LLM Analysis Result (Second Half):"]))
         (sprintln [analysis2]))
  end.

(** [err != nil] after a narration call, or a process ended inside it. *)
Definition failed (r : res (bytes * option error)) : bool :=
  match r with
  | Done (_, None) => false
  | _ => true
  end.

(** What [main] prints for a narration call that came back as [r]. *)
Definition failureReport (label : bytes) (r : res (bytes * option error))
  : list bytes :=
  match r with
  | Done (_, Some e) => [sprintln [label; e]]
  | _ => []
  end.

(** ** Platforms for the examples *)

Definition demoEnv (vars : list (bytes * bytes)) (key : bytes) : bytes :=
  match find (fun kv => bytes_eqb (fst kv) key) vars with
  | Some kv => snd kv
  | None => []
  end.

(** A stand-in decoder: [T:text] is a body with one choice, [R:text] one
    with a result field only, [{}] one with neither; nothing else decodes. *)
Definition demoUnmarshal (data : bytes) : option llmResp :=
  if HasPrefix data (bs "T:")
  then Some {| Choices := [{| Text := skipn 2 data |}]; Result := [] |}
  else if HasPrefix data (bs "R:")
  then Some {| Choices := []; Result := skipn 2 data |}
  else if bytes_eqb data (bs "{}")
  then Some {| Choices := []; Result := [] |}
  else None.

(** A metrics endpoint that answers [metricsBody] and an inference
    endpoint that gives its [answers] one after the other. *)
Definition demoPlatform (vars : list (bytes * bytes)) (metricsBody : response)
    (answers : list transport) : platform :=
  {| Getenv := demoEnv vars;
     urlError := fun _ _ => None;
     roundTrip := fun earlier req =>
       if isNarration req
       then nth (length (filter isNarration earlier)) answers
                (TransportError (bs "connection refused"))
       else Responded metricsBody;
     Marshal := prompt;
     Unmarshal := demoUnmarshal |}.

Definition ok (data : bytes) : response :=
  {| StatusCode := 200; Status := bs "200 OK"; Data := data;
     ReadErr := None |}.

Definition unavailable : response :=
  {| StatusCode := 503; Status := bs "503 Service Unavailable";
     Data := bs "overloaded"; ReadErr := None |}.

Definition fullEnv : list (bytes * bytes) :=
  [(bs "VAULT_TOKEN", bs "s.root"); (bs "LLM_URL", bs "http://llm/v1");
   (bs "LLM_TOKEN", bs "key")].

(** A payload of two lines: 5000 bytes, and one byte. *)
Definition longMetrics : bytes := repeat x61 5000 ++ [nl; x62].

(** A payload of one line of 5001 bytes. *)
Definition oneLongLine : bytes := x61 :: repeat x61 5000.

Definition forbidden : response :=
  {| StatusCode := 403; Status := bs "403 Forbidden";
     Data := bs "permission denied"; ReadErr := None |}.

(** All variables set, a payload that is split, and an inference endpoint
    that is unavailable. *)
Definition failingPlatform : platform :=
  demoPlatform fullEnv (ok longMetrics) [Responded unavailable].

(** All variables set, a short payload, a body with one choice. *)
Definition healthyPlatform : platform :=
  demoPlatform fullEnv (ok (bs "up 1")) [Responded (ok (bs "T:all good"))].

(** The inference-endpoint address is not set. *)
Definition noAddressPlatform : platform :=
  demoPlatform [(bs "VAULT_TOKEN", bs "s.root"); (bs "LLM_TOKEN", bs "key")]
               (ok (bs "up 1")) [Responded (ok (bs "T:all good"))].

(** Neither the address nor the metrics-source credential is set. *)
Definition noTokenPlatform : platform :=
  demoPlatform [(bs "LLM_TOKEN", bs "key")]
               (ok (bs "up 1")) [Responded (ok (bs "T:all good"))].

(** The metrics endpoint refuses the credential. *)
Definition forbiddenPlatform : platform :=
  demoPlatform fullEnv forbidden [Responded (ok (bs "T:all good"))].

(** A metrics answer whose body could not be read to its end. *)
Definition truncated : response :=
  {| StatusCode := 200; Status := bs "200 OK"; Data := bs "up";
     ReadErr := Some (bs "unexpected EOF") |}.

Definition truncatedPlatform : platform :=
  demoPlatform fullEnv truncated [Responded (ok (bs "T:all good"))].

(** The inference credential is not set. *)
Definition noKeyPlatform : platform :=
  demoPlatform [(bs "VAULT_TOKEN", bs "s.root"); (bs "LLM_URL", bs "http://llm/v1")]
               (ok (bs "up 1")) [Responded (ok (bs "T:all good"))].

(** A short payload and an inference endpoint that is unavailable. *)
Definition busyPlatform : platform :=
  demoPlatform fullEnv (ok (bs "up 1")) [Responded unavailable].

(** A payload that is split and two good answers. *)
Definition twoChunkPlatform : platform :=
  demoPlatform fullEnv (ok longMetrics)
               [Responded (ok (bs "T:first fine"));
                Responded (ok (bs "R:second fine"))].

(** A payload that is split, a good answer and then no answer. *)
Definition secondFailsPlatform : platform :=
  demoPlatform fullEnv (ok longMetrics)
               [Responded (ok (bs "T:first fine"));
                TransportError (bs "timeout")].

(** A stand-in decoder with one more kind of body: [E:text] is a body
    with two choices, an empty text and then [text]. *)
Definition demoUnmarshalChoices (data : bytes) : option llmResp :=
  if HasPrefix data (bs "E:")
  then Some {| Choices := [{| Text := [] |}; {| Text := skipn 2 data |}];
               Result := [] |}
  else demoUnmarshal data.

(** A short payload and an answer whose first choice is empty and whose
    second is not. *)
Definition laterChoicePlatform : platform :=
  let D := demoPlatform fullEnv (ok (bs "up 1"))
                        [Responded (ok (bs "E:second"))] in
  {| Getenv := Getenv D; urlError := urlError D; roundTrip := roundTrip D;
     Marshal := Marshal D; Unmarshal := demoUnmarshalChoices |}.

Definition created : response :=
  {| StatusCode := 201; Status := bs "201 Created";
     Data := bs "T:all good"; ReadErr := None |}.

(** A short payload and an answer with another success status. *)
Definition createdPlatform : platform :=
  demoPlatform fullEnv (ok (bs "up 1")) [Responded created].

(** * Properties *)

(** ** Byte-string lemmas *)

Lemma HasPrefix_spec (p s : bytes) :
  HasPrefix s p = true <-> exists q, s = p ++ q.
Proof.
  revert s; induction p as [|c p IH]; intros s; simpl.
  - split; [intros _; now exists s | reflexivity].
  - destruct s as [|d s].
    + split; [discriminate | intros [q Hq]; discriminate].
    + rewrite andb_true_iff, IH. split.
      * intros [Hd [q ->]]. apply byte_dec_bl in Hd. subst. now exists q.
      * intros [q Hq]. injection Hq as -> ->.
        split; [now apply byte_dec_lb | now exists q].
Qed.

Lemma Index_range (s sep : bytes) : Index s sep = -1 \/ 0 <= Index s sep.
Proof.
  induction s as [|b s IH]; simpl.
  - destruct (HasPrefix [] sep); lia.
  - destruct (HasPrefix (b :: s) sep); [lia|].
    destruct (Index s sep <? 0) eqn:E; [lia|].
    apply Z.ltb_ge in E. lia.
Qed.

(** [Contains] decides the presence of the subslice. *)
Lemma Contains_spec (s sub : bytes) :
  Contains s sub = true <-> exists p q, s = p ++ sub ++ q.
Proof.
  unfold Contains. rewrite negb_true_iff, Z.eqb_neq.
  induction s as [|b s IH]; simpl.
  - destruct (HasPrefix [] sub) eqn:E.
    + apply HasPrefix_spec in E as [q Hq].
      split; [intros _; now exists [], q | discriminate].
    + split; [congruence|]. intros (p & q & H).
      assert (HasPrefix [] sub = true) as E'; [|congruence].
      apply HasPrefix_spec. destruct p; [now exists q | discriminate].
  - destruct (HasPrefix (b :: s) sub) eqn:E.
    + apply HasPrefix_spec in E as [q Hq].
      split; [intros _; now exists [], q | discriminate].
    + destruct (Index_range s sub) as [Hi|Hi].
      * rewrite Hi in *. simpl. split; [congruence|].
        intros (p & q & H). destruct p as [|b' p].
        -- assert (HasPrefix (b :: s) sub = true) as E'; [|congruence].
           apply HasPrefix_spec. now exists q.
        -- injection H as -> ->. exfalso.
           assert (-1 <> -1) as C; [|congruence].
           apply IH. now exists p, q.
      * destruct (Index s sub <? 0) eqn:E'; [apply Z.ltb_lt in E'; lia|].
        split; [|lia]. intros _.
        destruct IH as [IH _]. destruct IH as (p & q & ->); [lia|].
        now exists (b :: p), q.
Qed.

Lemma Split_nonempty (s : bytes) (c : byte) : Split s c <> [].
Proof.
  destruct s as [|b s]; simpl; [discriminate|].
  destruct (Byte.eqb b c); [discriminate|].
  destruct (Split s c); discriminate.
Qed.

(** Joining what [Split] cut gives the slice back. *)
Lemma Join_Split (s : bytes) (c : byte) : Join (Split s c) [c] = s.
Proof.
  induction s as [|b s IH]; simpl; [reflexivity|].
  destruct (Byte.eqb b c) eqn:E.
  - apply byte_dec_bl in E. subst b.
    pose proof (Split_nonempty s c) as Hne.
    simpl. destruct (Split s c) as [|l ls]; [congruence|].
    now rewrite IH.
  - destruct (Split s c) as [|l ls] eqn:Hs.
    + now destruct (Split_nonempty s c).
    + simpl in *. destruct ls; simpl; now rewrite <- IH.
Qed.

(** No line that [Split] returns holds the separator. *)
Lemma Split_no_sep (s : bytes) (c : byte) (l : bytes) :
  In l (Split s c) -> ~ In c l.
Proof.
  revert l; induction s as [|b s IH]; simpl; intros l.
  - intros [<-|[]]. intros [].
  - destruct (Byte.eqb b c) eqn:E.
    + intros [<-|H]; [intros [] | now apply IH].
    + apply Byte.eqb_false in E.
      destruct (Split s c) as [|l0 ls].
      * intros [<-|[]]. intros [->|[]]. congruence.
      * intros [<-|H].
        -- intros [->|H]; [congruence|]. apply (IH l0); simpl; auto.
        -- apply IH. simpl; auto.
Qed.

Lemma Split_app_sep (l : bytes) (c : byte) (rest : bytes) :
  ~ In c l -> Split (l ++ c :: rest) c = l :: Split rest c.
Proof.
  induction l as [|b l IH]; simpl; intros Hl.
  - now rewrite (byte_dec_lb eq_refl).
  - destruct (Byte.eqb b c) eqn:E.
    + apply byte_dec_bl in E. tauto.
    + rewrite IH by tauto. reflexivity.
Qed.

Lemma Split_no_sep_id (l : bytes) (c : byte) : ~ In c l -> Split l c = [l].
Proof.
  induction l as [|b l IH]; simpl; intros Hl; [reflexivity|].
  destruct (Byte.eqb b c) eqn:E.
  - apply byte_dec_bl in E. tauto.
  - rewrite IH by tauto. reflexivity.
Qed.

(** Cutting what [Join] glued gives the lines back, when there is at least
    one line and no line holds the separator. *)
Lemma Split_Join (ls : list bytes) (c : byte) :
  ls <> [] -> (forall l, In l ls -> ~ In c l) ->
  Split (Join ls [c]) c = ls.
Proof.
  induction ls as [|l ls IH]; intros Hne Hls; [congruence|].
  destruct ls as [|l' ls].
  - simpl. apply Split_no_sep_id. apply Hls. simpl; auto.
  - change (Join (l :: l' :: ls) [c]) with (l ++ c :: Join (l' :: ls) [c]).
    rewrite Split_app_sep by (apply Hls; simpl; auto).
    f_equal. apply IH; [discriminate|].
    intros x Hx. apply Hls. simpl in *. tauto.
Qed.

Lemma Join_app (l1 l2 : list bytes) (sep : bytes) :
  l1 <> [] -> l2 <> [] ->
  Join (l1 ++ l2) sep = Join l1 sep ++ sep ++ Join l2 sep.
Proof.
  induction l1 as [|l l1 IH]; intros H1 H2; [congruence|].
  destruct l1 as [|l' l1].
  - simpl. destruct l2; [congruence | reflexivity].
  - change (Join ((l :: l' :: l1) ++ l2) sep)
      with (l ++ sep ++ Join ((l' :: l1) ++ l2) sep).
    rewrite IH by (discriminate || assumption).
    simpl. now rewrite <- !app_assoc.
Qed.

Lemma keepLines_filter (lines : list bytes) :
  keepLines lines = filter (fun l => negb (Contains l NaN)) lines.
Proof.
  induction lines as [|l ls IH]; simpl; [reflexivity|].
  now rewrite IH.
Qed.

Lemma keepLines_In (lines : list bytes) (l : bytes) :
  In l (keepLines lines) <-> In l lines /\ Contains l NaN = false.
Proof.
  rewrite keepLines_filter, filter_In, negb_true_iff. reflexivity.
Qed.

Lemma keepLines_length (lines : list bytes) :
  (length (keepLines lines) <= length lines)%nat.
Proof. rewrite keepLines_filter. apply filter_length_le. Qed.

Lemma keepLines_id (lines : list bytes) :
  (forall l, In l lines -> Contains l NaN = false) ->
  keepLines lines = lines.
Proof.
  induction lines as [|l ls IH]; simpl; intros H; [reflexivity|].
  rewrite (H l) by auto. simpl. f_equal. apply IH. auto.
Qed.

Lemma keepLines_nil (lines : list bytes) :
  (forall l, In l lines -> Contains l NaN = true) ->
  keepLines lines = [].
Proof.
  induction lines as [|l ls IH]; simpl; intros H; [reflexivity|].
  rewrite (H l) by auto. simpl. apply IH. auto.
Qed.

(** The lines of the sanitizer's result are the lines it kept, unless it
    kept none. *)
Lemma Split_filterNaNMetrics (metrics : bytes) :
  keepLines (Split metrics nl) <> [] ->
  Split (filterNaNMetrics metrics) nl = keepLines (Split metrics nl).
Proof.
  intros Hne. unfold filterNaNMetrics. apply Split_Join; [assumption|].
  intros l Hl. apply keepLines_In in Hl as [Hl _].
  now apply Split_no_sep in Hl.
Qed.

Lemma Join_In_substring (ls : list bytes) (sep l : bytes) :
  In l ls -> exists p q, Join ls sep = p ++ l ++ q.
Proof.
  induction ls as [|l0 rest IH]; intros Hl; [destruct Hl|].
  destruct rest as [|r rs].
  - destruct Hl as [<-|[]]. exists [], []. simpl. now rewrite app_nil_r.
  - change (Join (l0 :: r :: rs) sep) with (l0 ++ sep ++ Join (r :: rs) sep).
    destruct Hl as [<-|Hl].
    + now exists [], (sep ++ Join (r :: rs) sep).
    + destruct (IH Hl) as (p & q & ->).
      exists (l0 ++ sep ++ p), q. now rewrite <- !app_assoc.
Qed.

(** A line of a slice without the token is without the token. *)
Lemma Split_free (s : bytes) (c : byte) (t l : bytes) :
  Contains s t = false -> In l (Split s c) -> Contains l t = false.
Proof.
  intros Hs Hl. destruct (Contains l t) eqn:E; [|reflexivity].
  apply Contains_spec in E as (p & q & ->).
  apply (Join_In_substring _ [c]) in Hl as (p' & q' & Hj).
  rewrite Join_Split in Hj.
  assert (Contains s t = true) as C; [|congruence].
  apply Contains_spec. exists (p' ++ p), (q ++ q').
  rewrite Hj. now rewrite <- !app_assoc.
Qed.

(** Gluing lines without the token, with a separator the token does not
    hold, gives a slice without the token. *)
Lemma Join_free (ls : list bytes) (c : byte) (t : bytes) :
  t <> [] -> ~ In c t ->
  (forall l, In l ls -> Contains l t = false) ->
  Contains (Join ls [c]) t = false.
Proof.
  intros Ht Hc. induction ls as [|l rest IH]; intros Hls.
  - destruct (Contains (Join [] [c]) t) eqn:E; [|reflexivity].
    apply Contains_spec in E as (p & q & H). simpl in H.
    destruct p; [destruct t; [congruence | discriminate] | discriminate].
  - destruct rest as [|r rs]; [apply Hls; simpl; auto|].
    change (Join (l :: r :: rs) [c]) with (l ++ c :: Join (r :: rs) [c]).
    destruct (Contains (l ++ c :: Join (r :: rs) [c]) t) eqn:E;
      [|reflexivity].
    exfalso. apply Contains_spec in E as (p & q & H).
    assert (Hl : forall p' q', l <> p' ++ t ++ q').
    { intros p' q' ->.
      assert (Contains (p' ++ t ++ q') t = true) as C
        by (apply Contains_spec; eauto).
      rewrite Hls in C by (simpl; auto). discriminate. }
    assert (Hr : forall p' q', Join (r :: rs) [c] <> p' ++ t ++ q').
    { intros p' q' Hj.
      assert (Contains (Join (r :: rs) [c]) t = true) as C
        by (apply Contains_spec; eauto).
      rewrite IH in C; [discriminate|]. intros x Hx. apply Hls. now right. }
    apply app_eq_app in H as [u [[El H]|[Ep H]]].
    + (* the token starts inside [l] *)
      apply app_eq_app in H as [v [[Et H]|[Eu H]]].
      * destruct v as [|b v].
        -- apply (Hl p []). rewrite El, Et. now rewrite !app_nil_r.
        -- injection H as <- _. apply Hc. rewrite Et.
           apply in_or_app. right. now left.
      * apply (Hl p v). rewrite El, Eu. reflexivity.
    + (* the token starts after the end of [l] *)
      destruct u as [|b u].
      * simpl in H. destruct t as [|b t]; [congruence|].
        injection H as <- _. apply Hc. now left.
      * injection H as _ H. now apply (Hr u q).
Qed.

(** The sanitizer's result does not hold the token anywhere. *)
Lemma filterNaNMetrics_free (metrics : bytes) :
  Contains (filterNaNMetrics metrics) NaN = false.
Proof.
  unfold filterNaNMetrics. apply Join_free.
  - discriminate.
  - unfold NaN, nl. simpl. intuition discriminate.
  - intros l Hl. now apply keepLines_In in Hl.
Qed.

Lemma mid_lt (lines : list bytes) :
  lines <> [] -> (mid lines < length lines)%nat.
Proof.
  unfold mid. destruct lines; [congruence|]. intros _.
  apply Nat.div_lt; simpl; lia.
Qed.

Lemma skipn_mid_nonempty (s : bytes) :
  skipn (mid (Split s nl)) (Split s nl) <> [].
Proof.
  intros H. apply skipn_all_iff in H.
  pose proof (mid_lt (Split s nl) (Split_nonempty s nl)). lia.
Qed.

Lemma firstn_mid_nonempty (s : bytes) :
  (2 <= length (Split s nl))%nat ->
  firstn (mid (Split s nl)) (Split s nl) <> [].
Proof.
  intros H2 C.
  assert (Hlen : length (firstn (mid (Split s nl)) (Split s nl)) = 0%nat)
    by now rewrite C.
  pose proof (mid_lt (Split s nl) (Split_nonempty s nl)) as Hlt.
  rewrite firstn_length_le in Hlen by lia.
  assert (1 <= mid (Split s nl))%nat
    by (apply Nat.div_le_lower_bound; lia).
  lia.
Qed.

Lemma In_firstn {A} (k : nat) (ls : list A) (x : A) :
  In x (firstn k ls) -> In x ls.
Proof.
  intros H. rewrite <- (firstn_skipn k ls). apply in_or_app. now left.
Qed.

Lemma In_skipn {A} (k : nat) (ls : list A) (x : A) :
  In x (skipn k ls) -> In x ls.
Proof.
  intros H. rewrite <- (firstn_skipn k ls). apply in_or_app. now right.
Qed.

(** ** The sanitizer *)

(** C3.  A line of the input is retained if and only if it does not hold
    the token [NaN] (as a run of bytes, so case-sensitively); the retained
    lines are the input's lines filtered in place, so in their original
    order; the result is these lines glued with the line separator; seen
    as lines again, the result has at most as many lines as the input, and
    they are the retained lines whenever one was retained; and when every
    line is dropped the result is the empty slice. *)
Theorem filterNaNMetrics_spec (metrics : bytes) :
  let lines := Split metrics nl in
  let kept := keepLines lines in
  (forall l, In l kept <->
             In l lines /\ ~ (exists p q, l = p ++ NaN ++ q)) /\
  kept = filter (fun l => negb (Contains l NaN)) lines /\
  filterNaNMetrics metrics = Join kept [nl] /\
  (length (Split (filterNaNMetrics metrics) nl) <= length lines)%nat /\
  (kept <> [] -> Split (filterNaNMetrics metrics) nl = kept) /\
  ((forall l, In l lines -> exists p q, l = p ++ NaN ++ q) ->
   filterNaNMetrics metrics = []).
Proof.
  intros lines kept.
  split; [|split; [|split; [|split; [|split]]]].
  - intros l. unfold kept. rewrite keepLines_In. split.
    + intros [Hl Hn]. split; [assumption|]. intros C.
      apply Contains_spec in C. congruence.
    + intros [Hl Hn]. split; [assumption|].
      destruct (Contains l NaN) eqn:E; [|reflexivity].
      apply Contains_spec in E. contradiction.
  - apply keepLines_filter.
  - reflexivity.
  - assert (keepLines lines = [] \/ keepLines lines <> []) as [Hk|Hk]
      by (destruct (keepLines lines); [left | right]; congruence).
    + unfold filterNaNMetrics. fold lines. rewrite Hk. simpl.
      pose proof (Split_nonempty metrics nl) as Hne. fold lines in Hne.
      destruct lines; [congruence | simpl; lia].
    + rewrite Split_filterNaNMetrics by exact Hk. apply keepLines_length.
  - apply Split_filterNaNMetrics.
  - intros Hall. unfold filterNaNMetrics. fold lines.
    rewrite keepLines_nil; [reflexivity|].
    intros l Hl. apply Contains_spec. now apply Hall.
Qed.

(** C9.  Sanitizing twice is sanitizing once, and an input that does not
    hold the token comes back unchanged. *)
Theorem filterNaNMetrics_idempotent :
  (forall metrics,
      filterNaNMetrics (filterNaNMetrics metrics) = filterNaNMetrics metrics)
  /\
  (forall metrics,
      Contains metrics NaN = false -> filterNaNMetrics metrics = metrics).
Proof.
  assert (Hid : forall metrics,
             Contains metrics NaN = false ->
             filterNaNMetrics metrics = metrics).
  { intros metrics Hfree. unfold filterNaNMetrics.
    rewrite keepLines_id; [apply Join_Split|].
    intros l Hl. now apply (Split_free metrics nl). }
  split; [|exact Hid].
  intros metrics. apply Hid, filterNaNMetrics_free.
Qed.

(** ** The partitioner *)

Lemma partition_small (m : bytes) : len m <= threshold -> partition m = [m].
Proof.
  intros H. unfold partition.
  destruct (threshold <? len m) eqn:E; [apply Z.ltb_lt in E; lia|reflexivity].
Qed.

Lemma partition_large (m : bytes) :
  threshold < len m -> partition m = [firstHalf m; secondHalf m].
Proof.
  intros H. unfold partition.
  destruct (threshold <? len m) eqn:E; [reflexivity|apply Z.ltb_ge in E; lia].
Qed.

(** With two lines or more both halves hold lines, and the payload is the
    first half, a line separator, and the second half. *)
Lemma halves_bytes (m : bytes) :
  (2 <= length (Split m nl))%nat ->
  firstHalf m ++ [nl] ++ secondHalf m = m.
Proof.
  intros H2. unfold firstHalf, secondHalf.
  rewrite <- Join_app.
  - rewrite firstn_skipn. apply Join_Split.
  - now apply firstn_mid_nonempty.
  - apply skipn_mid_nonempty.
Qed.

Lemma Split_two_lines (m : bytes) (c : byte) :
  In c m -> (2 <= length (Split m c))%nat.
Proof.
  induction m as [|b m IH]; intros Hin; [destruct Hin|]. simpl.
  pose proof (Split_nonempty m c) as Hne.
  destruct (Byte.eqb b c) eqn:E.
  - destruct (Split m c); [congruence | simpl; lia].
  - apply Byte.eqb_false in E. destruct Hin as [->|Hin]; [congruence|].
    specialize (IH Hin). destruct (Split m c); simpl in *; lia.
Qed.

Lemma Split_firstHalf (m : bytes) :
  (2 <= length (Split m nl))%nat ->
  Split (firstHalf m) nl = firstn (mid (Split m nl)) (Split m nl).
Proof.
  intros H2. unfold firstHalf. apply Split_Join.
  - now apply firstn_mid_nonempty.
  - intros l Hl. apply In_firstn in Hl. now apply Split_no_sep in Hl.
Qed.

Lemma Split_secondHalf (m : bytes) :
  Split (secondHalf m) nl = skipn (mid (Split m nl)) (Split m nl).
Proof.
  unfold secondHalf. apply Split_Join; [apply skipn_mid_nonempty|].
  intros l Hl. apply In_skipn in Hl. now apply Split_no_sep in Hl.
Qed.

(** C1, as the code has it.  A payload of at most 5000 bytes is the only
    chunk; a longer one gives exactly two chunks.  When the payload holds
    a line separator, the lines of the first chunk followed by the lines
    of the second are the lines of the payload, in order, and glued with
    the line separator they are the payload.  When it holds none, the
    first chunk is empty and the second is the payload. *)
Theorem partition_reconstructs_by_lines (m : bytes) :
  (len m <= 5000 -> partition m = [m]) /\
  (5000 < len m ->
   exists c1 c2,
     partition m = [c1; c2] /\
     (In nl m ->
      Split c1 nl ++ Split c2 nl = Split m nl /\
      Join (Split c1 nl ++ Split c2 nl) [nl] = m) /\
     (~ In nl m -> c1 = [] /\ c2 = m)).
Proof.
  split.
  - apply partition_small.
  - intros H. exists (firstHalf m), (secondHalf m).
    split; [now apply partition_large|]. split.
    + intros Hin. apply Split_two_lines in Hin.
      rewrite Split_firstHalf by exact Hin. rewrite Split_secondHalf.
      rewrite firstn_skipn. split; [reflexivity | apply Join_Split].
    + intros Hno. unfold firstHalf, secondHalf.
      rewrite Split_no_sep_id by exact Hno. split; reflexivity.
Qed.

(** C5.  A payload of more than 5000 bytes with [N] lines is split into
    its first [N / 2] lines and its other [N - N / 2] lines, whatever their
    byte lengths; the second chunk, seen as lines again, is these other
    lines, and so is the first when [N] is at least two. *)
Theorem partition_line_bisection (m : bytes) :
  5000 < len m ->
  let lines := Split m nl in
  let N := length lines in
  partition m = [Join (firstn (N / 2) lines) [nl];
                 Join (skipn (N / 2) lines) [nl]] /\
  length (firstn (N / 2) lines) = (N / 2)%nat /\
  length (skipn (N / 2) lines) = (N - N / 2)%nat /\
  firstn (N / 2) lines ++ skipn (N / 2) lines = lines /\
  Split (secondHalf m) nl = skipn (N / 2) lines /\
  (2 <= N -> Split (firstHalf m) nl = firstn (N / 2) lines)%nat.
Proof.
  intros H lines N.
  assert (Hmid : (N / 2 <= N)%nat) by (apply Nat.Div0.div_le_upper_bound; lia).
  repeat split.
  - now apply partition_large.
  - apply firstn_length_le, Hmid.
  - apply length_skipn.
  - apply firstn_skipn.
  - unfold secondHalf. apply Split_Join; [apply skipn_mid_nonempty|].
    intros l Hl. apply In_skipn in Hl. now apply Split_no_sep in Hl.
  - intros H2. unfold firstHalf. apply Split_Join.
    + now apply firstn_mid_nonempty.
    + intros l Hl. apply In_firstn in Hl. now apply Split_no_sep in Hl.
Qed.

(** ** Runs of the three stages that touch the world *)

Section Runs.
Variable P : platform.

(** [fetchVaultMetrics] never ends the process; it sends nothing when
    the token or the URL is rejected, and one request otherwise. *)
Lemma fetch_run (w : world) :
  fetchVaultMetrics P w =
  if isEmpty (Getenv P (bs "VAULT_TOKEN"))
  then (Done ([], Some (bs "VAULT_TOKEN environment variable not set")), w)
  else match urlError P (bs "GET") (getVaultMetricsURL P) with
       | Some err => (Done ([], Some err), w)
       | None =>
           (Done (fetched (roundTrip P (sent w) (vaultRequest P))),
            sending w (vaultRequest P))
       end.
Proof.
  unfold fetchVaultMetrics, NewRequest, vaultRequest.
  destruct (isEmpty (Getenv P (bs "VAULT_TOKEN"))); [reflexivity|].
  destruct (urlError P (bs "GET") (getVaultMetricsURL P)); [reflexivity|].
  unfold bind, Do, ret, fetched.
  now destruct (roundTrip P (sent w) _).
Qed.

(** [analyzeWithLLM] ends the process when the address is not set,
    returns without sending when the URL or the token is rejected, and
    sends one request otherwise. *)
Lemma analyze_run (metrics logs : bytes) (w : world) :
  analyzeWithLLM P metrics logs w =
  if isEmpty (Getenv P (bs "LLM_URL"))
  then (Exited 1,
        complaining w (sprintln [bs "LLM_URL environment variable not set"]))
  else match urlError P (bs "POST") (Getenv P (bs "LLM_URL")) with
       | Some err => (Done ([], Some err), w)
       | None =>
           if isEmpty (Getenv P (bs "LLM_TOKEN"))
           then (Done ([], Some (bs "LLM_TOKEN environment variable not set")),
                 w)
           else (Done (narrated P (roundTrip P (sent w)
                                             (llmRequest P metrics))),
                 sending w (llmRequest P metrics))
       end.
Proof.
  unfold analyzeWithLLM, getLLMAPIURL, NewRequest, llmRequest.
  unfold bind at 1 2 3.
  destruct (isEmpty (Getenv P (bs "LLM_URL"))); [reflexivity|].
  unfold ret at 1 2.
  destruct (urlError P (bs "POST") (Getenv P (bs "LLM_URL")));
    [reflexivity|].
  destruct (isEmpty (Getenv P (bs "LLM_TOKEN"))); [reflexivity|].
  unfold bind, Do, ret, narrated.
  destruct (roundTrip P (sent w) _) as [err|resp]; [reflexivity|].
  now destruct (negb (StatusCode resp =? 200)).
Qed.

End Runs.

Section MainRuns.
Variable P : platform.

(** The run of the branch for one chunk, by the outcome of its call. *)
Lemma singleBranch_run (fm : bytes) (w : world) :
  singleBranch P fm w =
  match analyzeWithLLM P fm []
          (printing w (bs "analysis data for all metrics..." ++ [nl])) with
  | (Exited code, w') => (Exited code, w')
  | (Done (_, Some e), w') =>
      (Exited 1,
       printing w' (sprintln [bs "Error analyzing metrics with LLM:"; e]))
  | (Done (analysis, None), w') =>
      (Done tt,
       printing (printing w' (sprintln [bs "LLM Analysis Result:"]))
                (sprintln [analysis]))
  end.
Proof.
  unfold singleBranch. unfold bind at 1. unfold fmt_Print at 1.
  unfold bind at 1.
  destruct (analyzeWithLLM P fm [] _) as [[[analysis [e|]]|code] w'];
    reflexivity.
Qed.

(** The run of the branch for two chunks, by the outcome of its first
    call. *)
Lemma splitBranch_run (fm : bytes) (w : world) :
  splitBranch P fm w =
  match analyzeWithLLM P (firstHalf fm) []
          (printing w (bs "analysis data for first half..." ++ [nl])) with
  | (Exited code, w') => (Exited code, w')
  | (Done (_, Some e), w') =>
      (Exited 1,
       printing w'
         (sprintln [bs "Error analyzing first half with LLM:"; e]))
  | (Done (analysis1, None), w') => secondCall P fm analysis1 w'
  end.
Proof.
  unfold splitBranch, secondCall. unfold bind at 1. unfold fmt_Print at 1.
  unfold bind at 1.
  destruct (analyzeWithLLM P (firstHalf fm) [] _)
    as [[[analysis1 [e|]]|code] w']; try reflexivity.
  cbn [exitOnError]. unfold bind at 1. unfold ret at 1.
  unfold bind at 1. unfold fmt_Print at 1. unfold bind at 1.
  destruct (analyzeWithLLM P (secondHalf fm) [] _)
    as [[[analysis2 [e|]]|code] w'']; reflexivity.
Qed.

(** The run of [main], by the outcome of the fetch. *)
Lemma main_run (w : world) :
  main P w =
  match fetchVaultMetrics P w with
  | (Exited code, w1) => (Exited code, w1)
  | (Done (_, Some e), w1) =>
      (Exited 1,
       printing (printing w1 (bs "Fetching Vault metrics..." ++ [nl]))
                (sprintln [bs "Error fetching metrics:"; e]))
  | (Done (metrics, None), w1) =>
      let fm := filterNaNMetrics metrics in
      if threshold <? len fm
      then splitBranch P fm (atBranch w1 fm)
      else singleBranch P fm (atBranch w1 fm)
  end.
Proof.
  unfold main. unfold bind at 1.
  destruct (fetchVaultMetrics P w) as [[[metrics [e|]]|code] w1];
    try reflexivity.
  cbn [bind fmt_Print fmt_Println exitOnError ret]. unfold atBranch.
  now destruct (threshold <? len (filterNaNMetrics metrics)).
Qed.
End MainRuns.

Section Outcomes.
Variable P : platform.

Lemma narrated_ok (t : transport) (a : bytes) :
  narrated P t = (a, None) ->
  exists resp,
    t = Responded resp /\ StatusCode resp = 200 /\
    a = extractSummary P (Data resp).
Proof.
  destruct t as [err|resp]; simpl; [discriminate|].
  destruct (StatusCode resp =? 200) eqn:E; simpl; [|discriminate].
  intros [= <-]. apply Z.eqb_eq in E. now exists resp.
Qed.

Lemma narrated_not_ok (resp : response) :
  StatusCode resp <> 200 ->
  narrated P (Responded resp) =
  ([], Some (bs "LLM API error: " ++ Status resp ++ [nl] ++ Data resp)).
Proof.
  intros H. simpl. apply Z.eqb_neq in H. now rewrite H.
Qed.

(** A narration call that returns no error has sent its request and got
    status 200. *)
Lemma analyze_ok (metrics logs a : bytes) (w w' : world) :
  analyzeWithLLM P metrics logs w = (Done (a, None), w') ->
  exists resp,
    roundTrip P (sent w) (llmRequest P metrics) = Responded resp /\
    StatusCode resp = 200 /\
    a = extractSummary P (Data resp) /\
    w' = sending w (llmRequest P metrics).
Proof.
  rewrite analyze_run.
  destruct (isEmpty (Getenv P (bs "LLM_URL"))); [discriminate|].
  destruct (urlError P (bs "POST") (Getenv P (bs "LLM_URL")));
    [discriminate|].
  destruct (isEmpty (Getenv P (bs "LLM_TOKEN"))); [discriminate|].
  intros [= Hn <-]. apply narrated_ok in Hn as (resp & Hr & Hs & Ha).
  now exists resp.
Qed.

(** A narration call ends the process only with status 1, for a missing
    address, having sent and printed nothing. *)
Lemma analyze_exit (metrics logs : bytes) (w w' : world) (code : Z) :
  analyzeWithLLM P metrics logs w = (Exited code, w') ->
  code = 1 /\ isEmpty (Getenv P (bs "LLM_URL")) = true /\
  w' = complaining w (sprintln [bs "LLM_URL environment variable not set"]).
Proof.
  rewrite analyze_run.
  destruct (isEmpty (Getenv P (bs "LLM_URL"))).
  { now intros [= <- <-]. }
  destruct (urlError P (bs "POST") (Getenv P (bs "LLM_URL")));
    [discriminate|].
  destruct (isEmpty (Getenv P (bs "LLM_TOKEN"))); discriminate.
Qed.

(** A narration call sends at most its own request and prints nothing. *)
Lemma analyze_sent (metrics logs : bytes) (w w' : world)
      (r : res (bytes * option error)) :
  analyzeWithLLM P metrics logs w = (r, w') ->
  (sent w' = sent w \/ sent w' = sent w ++ [llmRequest P metrics]) /\
  stdout w' = stdout w.
Proof.
  rewrite analyze_run.
  destruct (isEmpty (Getenv P (bs "LLM_URL"))).
  { intros [= _ <-]. simpl. auto. }
  destruct (urlError P (bs "POST") (Getenv P (bs "LLM_URL"))).
  { intros [= _ <-]. auto. }
  destruct (isEmpty (Getenv P (bs "LLM_TOKEN"))).
  { intros [= _ <-]. auto. }
  intros [= _ <-]. simpl. auto.
Qed.

(** A fetch that returns no error has sent its request. *)
Lemma fetch_ok (w w1 : world) (metrics : bytes) :
  fetchVaultMetrics P w = (Done (metrics, None), w1) ->
  w1 = sending w (vaultRequest P).
Proof.
  rewrite fetch_run.
  destruct (isEmpty (Getenv P (bs "VAULT_TOKEN"))); [discriminate|].
  destruct (urlError P (bs "GET") (getVaultMetricsURL P)); [discriminate|].
  now intros [= _ <-].
Qed.

Lemma fetch_never_exits (w w1 : world) (code : Z) :
  fetchVaultMetrics P w <> (Exited code, w1).
Proof.
  rewrite fetch_run.
  destruct (isEmpty (Getenv P (bs "VAULT_TOKEN"))); [discriminate|].
  destruct (urlError P (bs "GET") (getVaultMetricsURL P)); discriminate.
Qed.

Lemma fetch_sent (w w1 : world) (x : bytes * option error) :
  fetchVaultMetrics P w = (Done x, w1) ->
  filter isNarration (sent w1) = filter isNarration (sent w) /\
  stdout w1 = stdout w /\ stderr w1 = stderr w.
Proof.
  rewrite fetch_run.
  destruct (isEmpty (Getenv P (bs "VAULT_TOKEN")));
    [now intros [= _ <-]|].
  destruct (urlError P (bs "GET") (getVaultMetricsURL P));
    [now intros [= _ <-]|].
  intros [= _ <-]. simpl. rewrite filter_app. simpl.
  now rewrite app_nil_r.
Qed.

Lemma vaultRequest_not_narration : isNarration (vaultRequest P) = false.
Proof. reflexivity. Qed.

Lemma llmRequest_narration (m : bytes) : isNarration (llmRequest P m) = true.
Proof. reflexivity. Qed.

Lemma allNarrated_one (m : bytes) (resp : response) :
  roundTrip P [vaultRequest P] (llmRequest P m) = Responded resp ->
  StatusCode resp = 200 ->
  allNarrated P [vaultRequest P; llmRequest P m].
Proof.
  intros Hr Hs i req Hi Hn.
  destruct i as [|[|i]]; simpl in Hi.
  - injection Hi as <-. rewrite vaultRequest_not_narration in Hn.
    discriminate.
  - injection Hi as <-. now exists resp.
  - destruct i; discriminate.
Qed.

Lemma allNarrated_two (m1 m2 : bytes) (resp1 resp2 : response) :
  roundTrip P [vaultRequest P] (llmRequest P m1) = Responded resp1 ->
  StatusCode resp1 = 200 ->
  roundTrip P [vaultRequest P; llmRequest P m1] (llmRequest P m2)
  = Responded resp2 ->
  StatusCode resp2 = 200 ->
  allNarrated P [vaultRequest P; llmRequest P m1; llmRequest P m2].
Proof.
  intros Hr1 Hs1 Hr2 Hs2 i req Hi Hn.
  destruct i as [|[|[|i]]]; simpl in Hi.
  - injection Hi as <-. rewrite vaultRequest_not_narration in Hn.
    discriminate.
  - injection Hi as <-. now exists resp1.
  - injection Hi as <-. now exists resp2.
  - destruct i; discriminate.
Qed.

(** A run of [main] from the start ends with status 1, or returns after
    every narration request it sent was answered with status 200. *)
Lemma main_outcome (r : res unit) (w : world) :
  main P init = (r, w) ->
  r = Exited 1 \/ (r = Done tt /\ allNarrated P (sent w)).
Proof.
  rewrite main_run.
  destruct (fetchVaultMetrics P init) as [[[metrics [e|]]|code] w1] eqn:Ef.
  - intros [= <- <-]. now left.
  - apply fetch_ok in Ef. subst w1. cbv zeta.
    destruct (threshold <? len (filterNaNMetrics metrics)).
    + rewrite splitBranch_run.
      destruct (analyzeWithLLM P (firstHalf _) [] _)
        as [[[a1 [e1|]]|c1] w2] eqn:E1.
      * intros [= <- <-]. now left.
      * apply analyze_ok in E1 as (resp1 & Hr1 & Hs1 & _ & ->).
        unfold secondCall.
        destruct (analyzeWithLLM P (secondHalf _) [] _)
          as [[[a2 [e2|]]|c2] w3] eqn:E2.
        -- intros [= <- <-]. now left.
        -- apply analyze_ok in E2 as (resp2 & Hr2 & Hs2 & _ & ->).
           intros [= <- <-]. right. split; [reflexivity|].
           simpl. now apply (allNarrated_two _ _ resp1 resp2).
        -- apply analyze_exit in E2 as (-> & _ & _).
           intros [= <- <-]. now left.
      * apply analyze_exit in E1 as (-> & _ & _).
        intros [= <- <-]. now left.
    + rewrite singleBranch_run.
      destruct (analyzeWithLLM P _ [] _) as [[[a1 [e1|]]|c1] w2] eqn:E1.
      * intros [= <- <-]. now left.
      * apply analyze_ok in E1 as (resp1 & Hr1 & Hs1 & _ & ->).
        intros [= <- <-]. right. split; [reflexivity|].
        simpl. now apply (allNarrated_one _ resp1).
      * apply analyze_exit in E1 as (-> & _ & _).
        intros [= <- <-]. now left.
  - now apply fetch_never_exits in Ef.
Qed.

End Outcomes.

(** ** The narrator *)

Section Narrator.
Variable P : platform.

(** C2, as the code has it.  When a narration request is answered with
    status 200, the call returns a narration and no error; the narration
    is the text of the first choice, choice 0, when the body decodes and
    that text is not empty - later choices are not looked at -, otherwise
    the result field when the body decodes and that field is not empty,
    and otherwise - the body does not decode, or decodes with neither -
    the body as it was read. *)
Theorem narration_fallback (metrics logs : bytes) (w : world)
        (resp : response) :
  isEmpty (Getenv P (bs "LLM_URL")) = false ->
  urlError P (bs "POST") (Getenv P (bs "LLM_URL")) = None ->
  isEmpty (Getenv P (bs "LLM_TOKEN")) = false ->
  roundTrip P (sent w) (llmRequest P metrics) = Responded resp ->
  StatusCode resp = 200 ->
  let narration := extractSummary P (Data resp) in
  analyzeWithLLM P metrics logs w
  = (Done (narration, None), sending w (llmRequest P metrics)) /\
  (forall r c cs,
      Unmarshal P (Data resp) = Some r -> Choices r = c :: cs ->
      Text c <> [] -> narration = Text c) /\
  (forall r,
      Unmarshal P (Data resp) = Some r ->
      (forall c cs, Choices r = c :: cs -> Text c = []) ->
      Result r <> [] -> narration = Result r) /\
  (forall r,
      Unmarshal P (Data resp) = Some r ->
      (forall c cs, Choices r = c :: cs -> Text c = []) ->
      Result r = [] -> narration = Data resp) /\
  (Unmarshal P (Data resp) = None -> narration = Data resp).
Proof.
  intros Hu He Ht Hr Hs narration. subst narration.
  split; [|split; [|split; [|split]]].
  - rewrite analyze_run, Hu, He, Ht, Hr. simpl.
    apply Z.eqb_eq in Hs. now rewrite Hs.
  - intros r c cs Hd Hc Hx. unfold extractSummary. rewrite Hd, Hc.
    simpl. destruct (Text c); [congruence | reflexivity].
  - intros r Hd Hc Hx. unfold extractSummary. rewrite Hd.
    destruct (Choices r) as [|c cs]; simpl.
    + destruct (Result r); [congruence | reflexivity].
    + rewrite (Hc c cs eq_refl). simpl.
      rewrite ?andb_false_r.
      destruct (Result r); [congruence | reflexivity].
  - intros r Hd Hc Hx. unfold extractSummary. rewrite Hd, Hx.
    destruct (Choices r) as [|c cs]; simpl; [reflexivity|].
    rewrite (Hc c cs eq_refl). simpl. now rewrite ?andb_false_r.
  - intros Hd. unfold extractSummary. now rewrite Hd.
Qed.

(** Only the first choice is looked at: when its text is empty, the
    texts of later choices do not matter. *)
Lemma extractSummary_first_choice_only (data : bytes) (r : llmResp)
      (rest : list choice) :
  Unmarshal P data = Some r ->
  Choices r = {| Text := [] |} :: rest ->
  extractSummary P data = if isEmpty (Result r) then data else Result r.
Proof.
  intros Hd Hc. unfold extractSummary. rewrite Hd, Hc. simpl.
  now destruct (Result r).
Qed.

(** C6.  A narration request answered with a status other than 200 makes
    the call return an error, and no narration, whose text holds the
    status line and the body as read; and a run of [main] in which some
    narration request got such an answer ends with exit status 1. *)
Theorem non_success_is_fatal :
  (forall metrics logs w w' r resp,
      analyzeWithLLM P metrics logs w = (r, w') ->
      sent w' = sent w ++ [llmRequest P metrics] ->
      roundTrip P (sent w) (llmRequest P metrics) = Responded resp ->
      StatusCode resp <> 200 ->
      r = Done ([], Some (bs "LLM API error: " ++ Status resp
                          ++ [nl] ++ Data resp))) /\
  (forall r w i req resp,
      main P init = (r, w) ->
      nth_error (sent w) i = Some req -> isNarration req = true ->
      roundTrip P (firstn i (sent w)) req = Responded resp ->
      StatusCode resp <> 200 ->
      r = Exited 1).
Proof.
  split.
  - intros metrics logs w w' r resp Hrun Hsent Hr Hs. revert Hrun.
    assert (Hw : forall x, sent w' <> sent x -> w' <> x) by congruence.
    assert (Hne : sent w' <> sent w).
    { rewrite Hsent. intros C. apply (f_equal (@length _)) in C.
      rewrite length_app in C. simpl in C. lia. }
    rewrite analyze_run.
    destruct (isEmpty (Getenv P (bs "LLM_URL"))).
    { intros [= _ C]. now destruct Hne; rewrite <- C. }
    destruct (urlError P (bs "POST") (Getenv P (bs "LLM_URL"))).
    { intros [= _ C]. now destruct Hne; rewrite <- C. }
    destruct (isEmpty (Getenv P (bs "LLM_TOKEN"))).
    { intros [= _ C]. now destruct Hne; rewrite <- C. }
    intros [= <- _]. rewrite Hr. now rewrite narrated_not_ok.
  - intros r w i req resp Hrun Hi Hn Hr Hs.
    destruct (main_outcome P r w Hrun) as [->|[_ Hall]]; [reflexivity|].
    destruct (Hall i req Hi Hn) as (resp' & Hr' & Hs').
    rewrite Hr in Hr'. injection Hr' as <-. contradiction.
Qed.

End Narrator.

(** ** The fetcher *)

Section Fetcher.
Variable P : platform.

(** C8.  When the credential is set and the request goes through, the
    fetch returns the body as it was read, and no error, whatever the
    status code of the answer; the request is a GET, and with no base
    address set it goes to the local default address followed by
    [/v1/sys/metrics?format=prometheus]. *)
Theorem fetch_returns_body (w : world) (resp : response) :
  isEmpty (Getenv P (bs "VAULT_TOKEN")) = false ->
  urlError P (bs "GET") (getVaultMetricsURL P) = None ->
  roundTrip P (sent w) (vaultRequest P) = Responded resp ->
  ReadErr resp = None ->
  fetchVaultMetrics P w
  = (Done (Data resp, None), sending w (vaultRequest P)) /\
  Method (vaultRequest P) = bs "GET" /\
  (isEmpty (Getenv P (bs "VAULT_ADDR")) = true ->
   URL (vaultRequest P)
   = bs "http://127.0.0.1:8200/v1/sys/metrics?format=prometheus").
Proof.
  intros Ht He Hr Hread. split; [|split].
  - rewrite fetch_run, Ht, He, Hr. simpl. now rewrite Hread.
  - reflexivity.
  - intros Ha. simpl. unfold getVaultMetricsURL. now rewrite Ha.
Qed.

(** C10.  With no credential for the metrics source the fetch returns
    its configuration error and leaves the world as it was - no request
    is built or sent - and the run of [main] ends with status 1 having
    sent nothing. *)
Theorem missing_token_sends_nothing :
  isEmpty (Getenv P (bs "VAULT_TOKEN")) = true ->
  (forall w,
      fetchVaultMetrics P w
      = (Done ([], Some (bs "VAULT_TOKEN environment variable not set")),
         w)) /\
  main P init
  = (Exited 1,
     {| sent := [];
        stdout := [bs "Fetching Vault metrics..." ++ [nl];
                   sprintln [bs "Error fetching metrics:";
                             bs "VAULT_TOKEN environment variable not set"]];
        stderr := [] |}).
Proof.
  intros Ht. split.
  - intros w. now rewrite fetch_run, Ht.
  - now rewrite main_run, fetch_run, Ht.
Qed.

End Fetcher.

(** ** The orchestrator *)

Section Orchestrator.
Variable P : platform.

Lemma partition_two (fm c1 c2 : bytes) :
  partition fm = [c1; c2] ->
  (threshold <? len fm) = true /\ c1 = firstHalf fm /\ c2 = secondHalf fm.
Proof.
  unfold partition. destruct (threshold <? len fm); [|discriminate].
  now intros [= <- <-].
Qed.

(** C4.  When the payload is split into two chunks and the narration
    call for the first one fails - it returns an error, or ends the
    process - the run of [main] ends there with status 1: nothing is
    sent after that call, so the run holds at most one narration
    request, and the standard output holds the progress lines and the
    report of that failure, and no narration. *)
Theorem first_failure_aborts (metrics c1 c2 : bytes) (w1 w2 : world)
        (r : res (bytes * option error)) :
  fetchVaultMetrics P init = (Done (metrics, None), w1) ->
  partition (filterNaNMetrics metrics) = [c1; c2] ->
  analyzeWithLLM P c1 [] (atFirstHalf w1 (filterNaNMetrics metrics))
  = (r, w2) ->
  failed r = true ->
  main P init
  = (Exited 1,
     {| sent := sent w2;
        stdout := [bs "Fetching Vault metrics..." ++ [nl];
                   sprintln [bs "len(filteredMetrics):";
                             itoa (len (filterNaNMetrics metrics))];
                   bs "analysis data for first half..." ++ [nl]]
                  ++ failureReport
                       (bs "Error analyzing first half with LLM:") r;
        stderr := stderr w2 |}) /\
  (length (filter isNarration (sent w2)) <= 1)%nat.
Proof.
  intros Hf Hp Ha Hfail.
  apply partition_two in Hp as (Hlen & -> & ->).
  pose proof (fetch_ok P _ _ _ Hf) as ->.
  pose proof (analyze_sent P _ _ _ _ _ Ha) as [Hsent Hout].
  split.
  - rewrite main_run, Hf. cbv zeta. rewrite Hlen, splitBranch_run.
    fold (atFirstHalf (sending init (vaultRequest P))
                      (filterNaNMetrics metrics)).
    rewrite Ha. destruct r as [[a [e|]]|code]; [| discriminate |].
    + unfold printing. rewrite Hout. reflexivity.
    + apply analyze_exit in Ha as (-> & _ & ->). simpl.
      reflexivity.
  - destruct Hsent as [-> | ->]; simpl; lia.
Qed.

(** C7, as the code has it.  With no inference-endpoint address the run
    of [main] ends with status 1 and never sends a narration request;
    the address is read inside the narration call, so when the fetch
    succeeds the run has by then sent the metrics request, sanitized and
    measured the payload and announced the call, and only then writes
    its complaint to the standard error; and when the fetch fails the run
    ends on that: it reports the fetch error on the standard output and
    the standard error stays empty, the address not having been read. *)
Theorem missing_address_exits_in_narration (r : res unit) (w : world) :
  isEmpty (Getenv P (bs "LLM_URL")) = true ->
  main P init = (r, w) ->
  r = Exited 1 /\
  filter isNarration (sent w) = [] /\
  (forall metrics w1,
      fetchVaultMetrics P init = (Done (metrics, None), w1) ->
      let fm := filterNaNMetrics metrics in
      w = complaining
            (printing (atBranch (sending init (vaultRequest P)) fm)
               (if threshold <? len fm
                then bs "analysis data for first half..." ++ [nl]
                else bs "analysis data for all metrics..." ++ [nl]))
            (sprintln [bs "LLM_URL environment variable not set"])) /\
  (forall data e w1,
      fetchVaultMetrics P init = (Done (data, Some e), w1) ->
      w = {| sent := sent w1;
             stdout := [bs "Fetching Vault metrics..." ++ [nl];
                        sprintln [bs "Error fetching metrics:"; e]];
             stderr := [] |}).
Proof.
  intros Hu. rewrite main_run.
  destruct (fetchVaultMetrics P init) as [[[metrics [e|]]|code] w1] eqn:Ef.
  - intros [= <- <-]. apply fetch_sent in Ef as (Hs & Ho & He).
    split; [reflexivity|]. split; [exact Hs|]. split.
    + intros ? ? [=].
    + intros data e' w1' [= _ <- <-]. unfold printing. simpl.
      now rewrite Ho, He.
  - apply fetch_ok in Ef. subst w1. cbv zeta.
    destruct (threshold <? len (filterNaNMetrics metrics)) eqn:Hlen.
    + rewrite splitBranch_run, analyze_run, Hu.
      intros [= <- <-]. split; [reflexivity|]. split; [reflexivity|]. split.
      * intros m' w1' [= <- _]. cbv zeta. now rewrite Hlen.
      * intros ? ? ? [=].
    + rewrite singleBranch_run, analyze_run, Hu.
      intros [= <- <-]. split; [reflexivity|]. split; [reflexivity|]. split.
      * intros m' w1' [= <- _]. cbv zeta. now rewrite Hlen.
      * intros ? ? ? [=].
  - now apply fetch_never_exits in Ef.
Qed.

End Orchestrator.

(** ** The theorems at concrete inputs *)

(** Three lines, the second with the token: it goes, the others stay in
    order; and two lines with the token: nothing stays. *)
Lemma filterNaNMetrics_spec_witness :
  Split (filterNaNMetrics (bs "up 1
rate NaN
sealed 0")) nl = [bs "up 1"; bs "sealed 0"] /\
  filterNaNMetrics (bs "rate NaN
NaN") = [].
Proof.
  split.
  - destruct (filterNaNMetrics_spec (bs "up 1
rate NaN
sealed 0")) as (_ & _ & _ & _ & H & _).
    apply H. vm_compute. discriminate.
  - destruct (filterNaNMetrics_spec (bs "rate NaN
NaN")) as (_ & _ & _ & _ & _ & H).
    apply H. intros l [<-|[<-|[]]].
    + exists (bs "rate "), []. reflexivity.
    + exists [], []. reflexivity.
Defined.

Lemma filterNaNMetrics_idempotent_witness :
  filterNaNMetrics (bs "up 1
sealed 0") = bs "up 1
sealed 0".
Proof.
  apply (proj2 filterNaNMetrics_idempotent). vm_compute. reflexivity.
Defined.

(** C1, as stated, at a payload of one line of 5001 bytes: the chunks are
    the empty chunk and the payload, and their lines, glued with the line
    separator, are the payload after a line separator, not the payload. *)
Lemma partition_reconstructs_counterexample :
  5000 < len oneLongLine /\
  exists c1 c2,
    partition oneLongLine = [c1; c2] /\
    Join (Split c1 nl ++ Split c2 nl) [nl] = nl :: oneLongLine /\
    Join (Split c1 nl ++ Split c2 nl) [nl] <> oneLongLine.
Proof.
  split; [vm_compute; reflexivity|].
  exists [], oneLongLine. split; [vm_compute; reflexivity|].
  split; [vm_compute; reflexivity|].
  vm_compute. discriminate.
Qed.

(** A payload of four bytes, and one of 5002 bytes in two lines. *)
Lemma partition_reconstructs_by_lines_witness :
  partition (bs "up 1") = [bs "up 1"] /\
  Join (Split (firstHalf longMetrics) nl ++ Split (secondHalf longMetrics) nl)
       [nl]
  = longMetrics.
Proof.
  split.
  - apply (proj1 (partition_reconstructs_by_lines (bs "up 1"))). vm_compute.
    discriminate.
  - assert (Hlen : 5000 < len longMetrics) by (vm_compute; reflexivity).
    assert (Hin : In nl longMetrics)
      by (apply in_or_app; right; left; reflexivity).
    destruct (proj2 (partition_reconstructs_by_lines longMetrics) Hlen)
      as (c1 & c2 & Hp & Hlines & _).
    rewrite partition_large in Hp by exact Hlen.
    injection Hp as -> ->. apply (Hlines Hin).
Defined.

(** Two lines of 5000 bytes and of one byte: one line each, so chunks of
    5000 bytes and of one. *)
Lemma partition_line_bisection_witness :
  partition longMetrics = [repeat x61 5000; [x62]] /\
  Split (firstHalf longMetrics) nl = [repeat x61 5000] /\
  Split (secondHalf longMetrics) nl = [[x62]].
Proof.
  assert (H : 5000 < len longMetrics) by (vm_compute; reflexivity).
  destruct (partition_line_bisection longMetrics H)
    as (Hp & _ & _ & _ & H2 & H1).
  split; [|split].
  - rewrite Hp. vm_compute. reflexivity.
  - rewrite H1; [vm_compute; reflexivity|]. vm_compute. lia.
  - rewrite H2. vm_compute. reflexivity.
Defined.

(** One line of 5001 bytes: the first chunk is empty and the second is the
    payload. *)
Example partition_one_line : partition oneLongLine = [[]; oneLongLine].
Proof. vm_compute. reflexivity. Qed.

Lemma narration_fallback_witness :
  analyzeWithLLM healthyPlatform (bs "up 1") [] init
  = (Done (bs "all good", None),
     sending init (llmRequest healthyPlatform (bs "up 1"))).
Proof.
  exact (proj1 (narration_fallback healthyPlatform (bs "up 1") [] init
                  (ok (bs "T:all good"))
                  eq_refl eq_refl eq_refl eq_refl eq_refl)).
Defined.

(** C2, as stated, at a body with status 200 whose first choice has an
    empty text and whose second has the text [second]: the first choice
    text that is not empty is [second], and the call returns the body as
    it was read; and at a body with the success status 201: the call
    returns an error. *)
Lemma first_nonempty_choice_counterexample :
  Unmarshal laterChoicePlatform (bs "E:second")
  = Some {| Choices := [{| Text := [] |}; {| Text := bs "second" |}];
            Result := [] |} /\
  analyzeWithLLM laterChoicePlatform (bs "up 1") [] init
  = (Done (bs "E:second", None),
     sending init (llmRequest laterChoicePlatform (bs "up 1"))) /\
  bs "E:second" <> bs "second" /\
  analyzeWithLLM createdPlatform (bs "up 1") [] init
  = (Done ([], Some (bs "LLM API error: 201 Created
T:all good")),
     sending init (llmRequest createdPlatform (bs "up 1"))).
Proof.
  split; [reflexivity|]. split; [reflexivity|].
  split; [discriminate | reflexivity].
Qed.

(** The extraction on the stand-in decoder's four kinds of body. *)
Example extractSummary_examples :
  extractSummary healthyPlatform (bs "T:all good") = bs "all good" /\
  extractSummary healthyPlatform (bs "R:degraded") = bs "degraded" /\
  extractSummary healthyPlatform (bs "{}") = bs "{}" /\
  extractSummary healthyPlatform (bs "plain text") = bs "plain text".
Proof. repeat split. Qed.

Lemma non_success_is_fatal_witness :
  fst (analyzeWithLLM failingPlatform (bs "up 1") [] init)
  = Done ([], Some (bs "LLM API error: 503 Service Unavailable
overloaded")) /\
  fst (main failingPlatform init) = Exited 1.
Proof.
  destruct (non_success_is_fatal failingPlatform) as [Ha Hb]. split.
  - apply (Ha (bs "up 1") [] init
              (snd (analyzeWithLLM failingPlatform (bs "up 1") [] init))
              (fst (analyzeWithLLM failingPlatform (bs "up 1") [] init))
              unavailable).
    + vm_compute. reflexivity.
    + vm_compute. reflexivity.
    + vm_compute. reflexivity.
    + vm_compute. discriminate.
  - apply (Hb (fst (main failingPlatform init))
              (snd (main failingPlatform init)) 1%nat
              (llmRequest failingPlatform (firstHalf longMetrics))
              unavailable).
    + vm_compute. reflexivity.
    + vm_compute. reflexivity.
    + reflexivity.
    + vm_compute. reflexivity.
    + vm_compute. discriminate.
Defined.

Lemma fetch_returns_body_witness :
  fetchVaultMetrics forbiddenPlatform init
  = (Done (bs "permission denied", None),
     sending init (vaultRequest forbiddenPlatform)) /\
  URL (vaultRequest forbiddenPlatform)
  = bs "http://127.0.0.1:8200/v1/sys/metrics?format=prometheus".
Proof.
  destruct (fetch_returns_body forbiddenPlatform init forbidden
              eq_refl eq_refl eq_refl eq_refl)
    as (H & _ & Hu).
  split; [exact H | apply Hu; reflexivity].
Defined.

Lemma missing_token_sends_nothing_witness :
  fetchVaultMetrics noTokenPlatform init
  = (Done ([], Some (bs "VAULT_TOKEN environment variable not set")), init)
  /\ sent (snd (main noTokenPlatform init)) = [].
Proof.
  destruct (missing_token_sends_nothing noTokenPlatform) as [Hf Hm];
    [reflexivity|].
  split; [apply Hf | now rewrite Hm].
Defined.

Lemma first_failure_aborts_witness :
  main failingPlatform init
  = (Exited 1,
     {| sent := [vaultRequest failingPlatform;
                 llmRequest failingPlatform (repeat x61 5000)];
        stdout := [bs "Fetching Vault metrics...
";
                   bs "len(filteredMetrics): 5002
";
                   bs "analysis data for first half...
";
                   bs "Error analyzing first half with LLM: LLM API error: 503 Service Unavailable
overloaded
"];
        stderr := [] |}).
Proof.
  destruct (first_failure_aborts failingPlatform longMetrics
              (firstHalf longMetrics) (secondHalf longMetrics)
              (sending init (vaultRequest failingPlatform))
              (snd (analyzeWithLLM failingPlatform (firstHalf longMetrics) []
                      (atFirstHalf
                         (sending init (vaultRequest failingPlatform))
                         (filterNaNMetrics longMetrics))))
              (fst (analyzeWithLLM failingPlatform (firstHalf longMetrics) []
                      (atFirstHalf
                         (sending init (vaultRequest failingPlatform))
                         (filterNaNMetrics longMetrics)))))
    as [H _].
  - vm_compute. reflexivity.
  - vm_compute. reflexivity.
  - vm_compute. reflexivity.
  - vm_compute. reflexivity.
  - rewrite H. vm_compute. reflexivity.
Defined.

(** C7, as stated, at a platform with the credentials but no address: the
    run does not end at once.  It sends the metrics request, sanitizes and
    measures the payload and announces the narration before it complains;
    and with the metrics credential missing as well, the run ends on that
    and the address is never looked at. *)
Lemma eager_address_check_counterexample :
  Getenv noAddressPlatform (bs "LLM_URL") = [] /\
  main noAddressPlatform init
  = (Exited 1,
     {| sent := [vaultRequest noAddressPlatform];
        stdout := [bs "Fetching Vault metrics...
";
                   bs "len(filteredMetrics): 4
";
                   bs "analysis data for all metrics...
"];
        stderr := [bs "LLM_URL environment variable not set
"] |}) /\
  Getenv noTokenPlatform (bs "LLM_URL") = [] /\
  main noTokenPlatform init
  = (Exited 1,
     {| sent := [];
        stdout := [bs "Fetching Vault metrics...
";
                   bs "Error fetching metrics: VAULT_TOKEN environment variable not set
"];
        stderr := [] |}).
Proof. repeat split. Qed.

Lemma missing_address_exits_in_narration_witness :
  fst (main noAddressPlatform init) = Exited 1 /\
  filter isNarration (sent (snd (main noAddressPlatform init))) = [] /\
  snd (main noTokenPlatform init)
  = {| sent := [];
       stdout := [bs "Fetching Vault metrics...
";
                  bs "Error fetching metrics: VAULT_TOKEN environment variable not set
"];
       stderr := [] |}.
Proof.
  destruct (missing_address_exits_in_narration noAddressPlatform
              (fst (main noAddressPlatform init))
              (snd (main noAddressPlatform init)))
    as (H1 & H2 & _); [reflexivity | reflexivity |].
  destruct (missing_address_exits_in_narration noTokenPlatform
              (fst (main noTokenPlatform init))
              (snd (main noTokenPlatform init)))
    as (_ & _ & _ & H4); [reflexivity | reflexivity |].
  split; [exact H1|]. split; [exact H2|].
  exact (H4 [] (bs "VAULT_TOKEN environment variable not set") init eq_refl).
Defined.

(** * Further properties *)

(** ** More on the sanitizer *)

Lemma Join_cons (l : bytes) (rest : list bytes) (sep : bytes) :
  rest <> [] -> Join (l :: rest) sep = l ++ sep ++ Join rest sep.
Proof. destruct rest; [congruence | reflexivity]. Qed.

Lemma Split_app (a b : bytes) (c : byte) :
  Split (a ++ c :: b) c = Split a c ++ Split b c.
Proof.
  induction a as [|x a IH]; simpl.
  - now rewrite (byte_dec_lb eq_refl).
  - destruct (Byte.eqb x c); [now rewrite IH|].
    rewrite IH. pose proof (Split_nonempty a c) as Hne.
    destruct (Split a c); [congruence | reflexivity].
Qed.

Lemma keepLines_app (l1 l2 : list bytes) :
  keepLines (l1 ++ l2) = keepLines l1 ++ keepLines l2.
Proof. rewrite !keepLines_filter. apply filter_app. Qed.

Lemma Contains_nonempty (l : bytes) : Contains l NaN = true -> l <> [].
Proof. intros H ->. discriminate. Qed.

Lemma keepLines_Join_le (ls : list bytes) :
  (length (Join (keepLines ls) [nl]) <= length (Join ls [nl]))%nat.
Proof.
  induction ls as [|l rest IH]; [simpl; lia|].
  destruct rest as [|r rs].
  - simpl. destruct (Contains l NaN); simpl; lia.
  - rewrite (Join_cons l (r :: rs)) by discriminate.
    rewrite !length_app.
    change (keepLines (l :: r :: rs))
      with (if negb (Contains l NaN) then l :: keepLines (r :: rs)
            else keepLines (r :: rs)).
    destruct (negb (Contains l NaN)); [|lia].
    destruct (keepLines (r :: rs)) as [|k ks] eqn:Hk; [simpl; lia|].
    rewrite Join_cons by discriminate. rewrite !length_app. lia.
Qed.

Lemma keepLines_Join_lt (ls : list bytes) :
  (exists l, In l ls /\ Contains l NaN = true) ->
  (length (Join (keepLines ls) [nl]) < length (Join ls [nl]))%nat.
Proof.
  induction ls as [|l rest IH]; intros (x & Hx & Hc); [destruct Hx|].
  change (keepLines (l :: rest))
    with (if negb (Contains l NaN) then l :: keepLines rest
          else keepLines rest).
  destruct (Contains l NaN) eqn:El; simpl negb; cbv iota.
  - pose proof (keepLines_Join_le rest) as Hle.
    pose proof (Contains_nonempty l El) as Hl.
    destruct rest as [|r rs].
    + simpl. destruct l; [congruence | simpl; lia].
    + rewrite Join_cons by discriminate. rewrite !length_app. simpl in *. lia.
  - destruct Hx as [->|Hx]; [congruence|].
    assert (Hrest : rest <> []) by (intros ->; destruct Hx).
    specialize (IH (ex_intro _ x (conj Hx Hc))).
    rewrite (Join_cons l rest) by assumption. rewrite !length_app.
    destruct (keepLines rest) as [|k ks] eqn:Hk; [simpl; lia|].
    rewrite Join_cons by discriminate. rewrite !length_app. lia.
Qed.

(** X1.  The sanitized payload is never longer than the raw one, and it is
    strictly shorter exactly when the raw payload holds the token. *)
Theorem filterNaNMetrics_shrinks (metrics : bytes) :
  len (filterNaNMetrics metrics) <= len metrics /\
  (len (filterNaNMetrics metrics) < len metrics
   <-> Contains metrics NaN = true).
Proof.
  unfold len, filterNaNMetrics.
  pose proof (keepLines_Join_le (Split metrics nl)) as Hle.
  rewrite Join_Split in Hle. split; [lia|]. split.
  - intros Hlt. destruct (Contains metrics NaN) eqn:E; [reflexivity|].
    exfalso. rewrite keepLines_id in Hlt.
    + rewrite Join_Split in Hlt. lia.
    + intros l Hl. now apply (Split_free metrics nl).
  - intros Hc.
    assert (Hex : exists l, In l (Split metrics nl) /\ Contains l NaN = true).
    { destruct (existsb (fun l => Contains l NaN) (Split metrics nl)) eqn:E.
      - apply existsb_exists in E. exact E.
      - exfalso.
        assert (Contains (Join (Split metrics nl) [nl]) NaN = false) as C.
        { apply Join_free; [discriminate | |].
          - unfold NaN, nl. simpl. intuition discriminate.
          - intros l Hl. destruct (Contains l NaN) eqn:El; [|reflexivity].
            assert (existsb (fun l => Contains l NaN) (Split metrics nl)
                    = true) as C by (apply existsb_exists; eauto).
            congruence. }
        rewrite Join_Split in C. congruence. }
    apply keepLines_Join_lt in Hex. rewrite Join_Split in Hex. lia.
Qed.

(** X2.  Sanitizing works line by line: for two payloads glued with a line
    separator, the result is the two results glued the same way, or the
    result of one of them alone when the other keeps no line. *)
Theorem filterNaNMetrics_app (a b : bytes) :
  filterNaNMetrics (a ++ [nl] ++ b) =
  match keepLines (Split a nl), keepLines (Split b nl) with
  | [], _ => filterNaNMetrics b
  | _ :: _, [] => filterNaNMetrics a
  | _ :: _, _ :: _ => filterNaNMetrics a ++ [nl] ++ filterNaNMetrics b
  end.
Proof.
  unfold filterNaNMetrics. simpl app.
  rewrite Split_app, keepLines_app.
  destruct (keepLines (Split a nl)) as [|k ks]; [reflexivity|].
  destruct (keepLines (Split b nl)) as [|k' ks'].
  - now rewrite app_nil_r.
  - apply Join_app; discriminate.
Qed.

(** X3.  No chunk handed to the narrator holds the token: neither the
    sanitized payload nor either half of it, not even across the line
    separators. *)
Theorem chunks_free_of_token (metrics chunk : bytes) :
  In chunk (partition (filterNaNMetrics metrics)) ->
  Contains chunk NaN = false.
Proof.
  assert (Hlines : forall l,
             In l (Split (filterNaNMetrics metrics) nl) ->
             Contains l NaN = false).
  { intros l Hl. apply (Split_free (filterNaNMetrics metrics) nl); [|exact Hl].
    apply filterNaNMetrics_free. }
  assert (Hsep : ~ In nl NaN) by (unfold NaN, nl; simpl; intuition discriminate).
  unfold partition.
  destruct (threshold <? len (filterNaNMetrics metrics)).
  - intros [<-|[<-|[]]].
    + apply Join_free; [discriminate | exact Hsep |].
      intros l Hl. apply Hlines. now apply In_firstn in Hl.
    + apply Join_free; [discriminate | exact Hsep |].
      intros l Hl. apply Hlines. now apply In_skipn in Hl.
  - intros [<-|[]]. apply filterNaNMetrics_free.
Qed.

(** ** More on the partitioner *)

(** X4.  A payload with a line separator in it is its first half, a line
    separator, and its second half; so each half is strictly shorter than
    the payload. *)
Theorem halves_rejoin (m : bytes) :
  In nl m ->
  firstHalf m ++ [nl] ++ secondHalf m = m /\
  len (firstHalf m) < len m /\
  len (secondHalf m) < len m.
Proof.
  intros Hin. apply Split_two_lines in Hin.
  pose proof (halves_bytes m Hin) as Hb.
  split; [exact Hb|].
  apply (f_equal (@length _)) in Hb. rewrite !length_app in Hb.
  simpl in Hb. unfold len. lia.
Qed.

(** X5.  A payload of one line is not cut: its first half is empty and its
    second half is the payload, so over the threshold the chunks are the
    empty chunk and the whole payload. *)
Theorem one_line_halves (m : bytes) :
  ~ In nl m ->
  firstHalf m = [] /\ secondHalf m = m /\
  (threshold < len m -> partition m = [[]; m]).
Proof.
  intros Hno.
  assert (H1 : firstHalf m = [])
    by (unfold firstHalf; now rewrite Split_no_sep_id).
  assert (H2 : secondHalf m = m)
    by (unfold secondHalf; now rewrite Split_no_sep_id).
  split; [exact H1|]. split; [exact H2|].
  intros Hlen. rewrite partition_large by exact Hlen. now rewrite H1, H2.
Qed.


(** ** More on the narrator *)

Section NarratorMore.
Variable P : platform.

(** X7.  The narration taken from a body is empty only when the body is:
    the answer is never lost. *)
Theorem extractSummary_keeps_response (data : bytes) :
  data <> [] -> extractSummary P data <> [].
Proof.
  intros Hd. unfold extractSummary.
  destruct (Unmarshal P data) as [r|]; [|exact Hd].
  destruct ((0 <? len (Choices r))
            && negb (isEmpty (Text (nth 0 (Choices r) {| Text := [] |}))))
    eqn:E.
  - apply andb_true_iff in E as [_ E].
    destruct (Text (nth 0 (Choices r) {| Text := [] |}));
      [discriminate | discriminate].
  - destruct (Result r); [exact Hd | discriminate].
Qed.

Lemma narrated_error_empty (t : transport) (a : bytes) (e : error) :
  narrated P t = (a, Some e) -> a = [].
Proof.
  destruct t as [err|resp]; simpl; [now intros [= <- _]|].
  destruct (negb (StatusCode resp =? 200)); [now intros [= <- _]|].
  discriminate.
Qed.

(** X8.  However a narration call goes, it writes nothing to the standard
    output; it sends at most its one request, and that only with both the
    address and the credential set; an error comes with an empty
    narration; and it ends the process only with status 1, for a missing
    address, before anything is sent. *)
Theorem analyze_footprint (metrics logs : bytes) (w w' : world)
        (r : res (bytes * option error)) :
  analyzeWithLLM P metrics logs w = (r, w') ->
  stdout w' = stdout w /\
  (sent w' = sent w \/
   (sent w' = sent w ++ [llmRequest P metrics] /\
    isEmpty (Getenv P (bs "LLM_URL")) = false /\
    isEmpty (Getenv P (bs "LLM_TOKEN")) = false)) /\
  (forall a e, r = Done (a, Some e) -> a = []) /\
  (forall code, r = Exited code ->
                code = 1 /\ sent w' = sent w /\
                isEmpty (Getenv P (bs "LLM_URL")) = true).
Proof.
  rewrite analyze_run.
  destruct (isEmpty (Getenv P (bs "LLM_URL"))) eqn:Hu.
  { intros [= <- <-]. split; [|split; [|split]].
    - reflexivity.
    - now left.
    - discriminate.
    - now intros code [= <-]. }
  destruct (urlError P (bs "POST") (Getenv P (bs "LLM_URL"))).
  { intros [= <- <-]. split; [|split; [|split]].
    - reflexivity.
    - now left.
    - now intros a e' [= <- _].
    - discriminate. }
  destruct (isEmpty (Getenv P (bs "LLM_TOKEN"))) eqn:Ht.
  { intros [= <- <-]. split; [|split; [|split]].
    - reflexivity.
    - now left.
    - now intros a e' [= <- _].
    - discriminate. }
  intros [= <- <-]. split; [|split; [|split]].
  - reflexivity.
  - right. now repeat split.
  - intros a e Hn. injection Hn as Hn. now apply narrated_error_empty in Hn.
  - discriminate.
Qed.

(** X9.  The address the narrator gets is never empty: with the variable
    unset the process ends with status 1 and a complaint on the standard
    error, and otherwise the value comes back and nothing else happens. *)
Theorem getLLMAPIURL_never_empty (w w' : world) (r : res bytes) :
  getLLMAPIURL P w = (r, w') ->
  (forall url, r = Done url ->
               url <> [] /\ url = Getenv P (bs "LLM_URL") /\ w' = w) /\
  (forall code, r = Exited code ->
                code = 1 /\ Getenv P (bs "LLM_URL") = [] /\
                sent w' = sent w /\ stdout w' = stdout w /\
                stderr w'
                = stderr w
                  ++ [sprintln [bs "LLM_URL environment variable not set"]]).
Proof.
  unfold getLLMAPIURL, bind.
  destruct (Getenv P (bs "LLM_URL")) as [|b u] eqn:Hu; simpl.
  - intros [= <- <-]. split; [discriminate|].
    intros code [= <-]. repeat split.
  - intros [= <- <-]. split; [|discriminate].
    intros url [= <-]. repeat split. discriminate.
Qed.

(** X10.  With the address set and the inference credential missing,
    every narration call returns its configuration error and leaves the
    world as it was; so a run of [main] ends with status 1 without a
    narration request and with nothing on the standard error. *)
Theorem missing_llm_token_sends_nothing :
  isEmpty (Getenv P (bs "LLM_URL")) = false ->
  urlError P (bs "POST") (Getenv P (bs "LLM_URL")) = None ->
  isEmpty (Getenv P (bs "LLM_TOKEN")) = true ->
  (forall metrics logs w,
      analyzeWithLLM P metrics logs w
      = (Done ([], Some (bs "LLM_TOKEN environment variable not set")), w)) /\
  (forall r w,
      main P init = (r, w) ->
      r = Exited 1 /\ filter isNarration (sent w) = [] /\ stderr w = []).
Proof.
  intros Hu He Ht.
  assert (Ha : forall metrics logs w,
             analyzeWithLLM P metrics logs w
             = (Done ([], Some (bs "LLM_TOKEN environment variable not set")),
                w))
    by (intros; now rewrite analyze_run, Hu, He, Ht).
  split; [exact Ha|].
  intros r w. rewrite main_run.
  destruct (fetchVaultMetrics P init) as [[[metrics [e|]]|code] w1] eqn:Ef.
  - apply fetch_sent in Ef as (Hs & _ & He').
    intros [= <- <-]. repeat split; assumption.
  - apply fetch_ok in Ef. subst w1. cbv zeta.
    destruct (threshold <? len (filterNaNMetrics metrics)).
    + rewrite splitBranch_run, Ha. intros [= <- <-]. repeat split.
    + rewrite singleBranch_run, Ha. intros [= <- <-]. repeat split.
  - now apply fetch_never_exits in Ef.
Qed.

End NarratorMore.

(** ** More on the fetcher *)

Section FetcherMore.
Variable P : platform.

(** X11.  However the fetch goes, it returns to its caller and writes
    nothing; it sends at most its one request, and that only with the
    credential set; and when it sends nothing it returns an error and no
    data. *)
Theorem fetch_footprint (w w' : world) (r : res (bytes * option error)) :
  fetchVaultMetrics P w = (r, w') ->
  exists data err,
    r = Done (data, err) /\
    stdout w' = stdout w /\ stderr w' = stderr w /\
    ((sent w' = sent w /\ data = [] /\ err <> None) \/
     (sent w' = sent w ++ [vaultRequest P] /\
      isEmpty (Getenv P (bs "VAULT_TOKEN")) = false)).
Proof.
  rewrite fetch_run.
  destruct (isEmpty (Getenv P (bs "VAULT_TOKEN"))) eqn:Ht.
  { intros [= <- <-]. eexists _, _. repeat split. left.
    repeat split. discriminate. }
  destruct (urlError P (bs "GET") (getVaultMetricsURL P)).
  { intros [= <- <-]. eexists _, _. repeat split. left.
    repeat split. discriminate. }
  intros [= <- <-].
  destruct (fetched _) as [data err]. exists data, err.
  repeat split. right. now split.
Qed.

End FetcherMore.

(** ** More on the orchestrator *)

Section OrchestratorMore.
Variable P : platform.

(** X12.  Whatever error the fetch returns - a missing credential, a URL
    that is refused, a failed request, a body that could not be read to
    its end - [main] prints the progress line and the error and ends with
    status 1; whatever data came with the error is dropped, and no
    narration request is sent. *)
Theorem fetch_failure_aborts (data : bytes) (e : error) (w1 : world) :
  fetchVaultMetrics P init = (Done (data, Some e), w1) ->
  main P init
  = (Exited 1,
     {| sent := sent w1;
        stdout := [bs "Fetching Vault metrics..." ++ [nl];
                   sprintln [bs "Error fetching metrics:"; e]];
        stderr := [] |}) /\
  filter isNarration (sent w1) = [].
Proof.
  intros Hf. pose proof (fetch_sent P _ _ _ Hf) as (Hs & Ho & He).
  split; [|exact Hs].
  rewrite main_run, Hf. unfold printing. simpl. now rewrite Ho, He.
Qed.

(** X13.  When the fetch succeeds, the sanitized payload is within the
    threshold and its narration call succeeds, the run returns having
    sent the metrics request and one narration request, for the whole
    sanitized payload, and having printed the progress lines, the
    unlabelled heading and the narration. *)
Theorem single_chunk_success (metrics a : bytes) (w1 w2 : world) :
  fetchVaultMetrics P init = (Done (metrics, None), w1) ->
  len (filterNaNMetrics metrics) <= threshold ->
  analyzeWithLLM P (filterNaNMetrics metrics) []
    (printing (atBranch w1 (filterNaNMetrics metrics))
              (bs "analysis data for all metrics..." ++ [nl]))
  = (Done (a, None), w2) ->
  main P init
  = (Done tt,
     {| sent := [vaultRequest P; llmRequest P (filterNaNMetrics metrics)];
        stdout := [bs "Fetching Vault metrics..." ++ [nl];
                   sprintln [bs "len(filteredMetrics):";
                             itoa (len (filterNaNMetrics metrics))];
                   bs "analysis data for all metrics..." ++ [nl];
                   bs "LLM Analysis Result:" ++ [nl];
                   a ++ [nl]];
        stderr := [] |}).
Proof.
  intros Hf Hlen Ha. pose proof (fetch_ok P _ _ _ Hf) as ->.
  rewrite main_run, Hf. cbv zeta.
  apply Z.ltb_ge in Hlen. rewrite Hlen, singleBranch_run, Ha.
  apply analyze_ok in Ha as (_ & _ & _ & _ & ->). reflexivity.
Qed.

(** X14.  When the fetch succeeds, the sanitized payload is over the
    threshold and both narration calls succeed, the run returns having
    sent the metrics request, then the request for the first half, then
    the one for the second half; both progress lines come before both
    narrations, and the first narration, under its heading, before the
    second. *)
Theorem two_chunk_success (metrics a1 a2 : bytes) (w1 w2 w3 : world) :
  fetchVaultMetrics P init = (Done (metrics, None), w1) ->
  threshold < len (filterNaNMetrics metrics) ->
  analyzeWithLLM P (firstHalf (filterNaNMetrics metrics)) []
    (atFirstHalf w1 (filterNaNMetrics metrics))
  = (Done (a1, None), w2) ->
  analyzeWithLLM P (secondHalf (filterNaNMetrics metrics)) []
    (printing w2 (bs "analysis data for second half..." ++ [nl]))
  = (Done (a2, None), w3) ->
  main P init
  = (Done tt,
     {| sent := [vaultRequest P;
                 llmRequest P (firstHalf (filterNaNMetrics metrics));
                 llmRequest P (secondHalf (filterNaNMetrics metrics))];
        stdout := [bs "Fetching Vault metrics..." ++ [nl];
                   sprintln [bs "len(filteredMetrics):";
                             itoa (len (filterNaNMetrics metrics))];
                   bs "analysis data for first half..." ++ [nl];
                   bs "analysis data for second half..." ++ [nl];
                   bs "LLM Analysis Result (First Half):" ++ [nl];
                   a1 ++ [nl];
                   [nl] ++ bs "LLM Analysis Result (Second Half):" ++ [nl];
                   a2 ++ [nl]];
        stderr := [] |}).
Proof.
  intros Hf Hlen Ha1 Ha2. pose proof (fetch_ok P _ _ _ Hf) as ->.
  rewrite main_run, Hf. cbv zeta.
  apply Z.ltb_lt in Hlen. rewrite Hlen, splitBranch_run.
  fold (atFirstHalf (sending init (vaultRequest P))
                    (filterNaNMetrics metrics)).
  rewrite Ha1. unfold secondCall. rewrite Ha2.
  apply analyze_ok in Ha1 as (_ & _ & _ & _ & ->).
  apply analyze_ok in Ha2 as (_ & _ & _ & _ & ->). reflexivity.
Qed.

(** X15.  When the first narration call succeeded and the second fails,
    the run ends with status 1 and the first narration is not printed:
    the standard output holds the progress lines and the report of the
    second failure only. *)
Theorem second_failure_discards_first (metrics a1 : bytes)
        (w1 w2 w3 : world) (r : res (bytes * option error)) :
  fetchVaultMetrics P init = (Done (metrics, None), w1) ->
  threshold < len (filterNaNMetrics metrics) ->
  analyzeWithLLM P (firstHalf (filterNaNMetrics metrics)) []
    (atFirstHalf w1 (filterNaNMetrics metrics))
  = (Done (a1, None), w2) ->
  analyzeWithLLM P (secondHalf (filterNaNMetrics metrics)) []
    (printing w2 (bs "analysis data for second half..." ++ [nl]))
  = (r, w3) ->
  failed r = true ->
  main P init
  = (Exited 1,
     {| sent := sent w3;
        stdout := [bs "Fetching Vault metrics..." ++ [nl];
                   sprintln [bs "len(filteredMetrics):";
                             itoa (len (filterNaNMetrics metrics))];
                   bs "analysis data for first half..." ++ [nl];
                   bs "analysis data for second half..." ++ [nl]]
                  ++ failureReport
                       (bs "Error analyzing second half with LLM:") r;
        stderr := stderr w3 |}).
Proof.
  intros Hf Hlen Ha1 Ha2 Hfail. pose proof (fetch_ok P _ _ _ Hf) as ->.
  pose proof (analyze_sent P _ _ _ _ _ Ha2) as [_ Hout].
  rewrite main_run, Hf. cbv zeta.
  apply Z.ltb_lt in Hlen. rewrite Hlen, splitBranch_run.
  fold (atFirstHalf (sending init (vaultRequest P))
                    (filterNaNMetrics metrics)).
  rewrite Ha1. unfold secondCall. rewrite Ha2.
  apply analyze_ok in Ha1 as (_ & _ & _ & _ & ->).
  destruct r as [[a [e|]]|code]; [| discriminate |].
  - unfold printing. rewrite Hout. reflexivity.
  - apply analyze_exit in Ha2 as (-> & _ & ->). reflexivity.
Qed.

(** X16.  When the payload is within the threshold and its narration call
    fails, the run ends with status 1 after that call, with the progress
    lines and the report of the failure on the standard output and no
    result heading. *)
Theorem single_chunk_failure (metrics : bytes) (w1 w2 : world)
        (r : res (bytes * option error)) :
  fetchVaultMetrics P init = (Done (metrics, None), w1) ->
  len (filterNaNMetrics metrics) <= threshold ->
  analyzeWithLLM P (filterNaNMetrics metrics) []
    (printing (atBranch w1 (filterNaNMetrics metrics))
              (bs "analysis data for all metrics..." ++ [nl]))
  = (r, w2) ->
  failed r = true ->
  main P init
  = (Exited 1,
     {| sent := sent w2;
        stdout := [bs "Fetching Vault metrics..." ++ [nl];
                   sprintln [bs "len(filteredMetrics):";
                             itoa (len (filterNaNMetrics metrics))];
                   bs "analysis data for all metrics..." ++ [nl]]
                  ++ failureReport (bs "Error analyzing metrics with LLM:") r;
        stderr := stderr w2 |}).
Proof.
  intros Hf Hlen Ha Hfail. pose proof (fetch_ok P _ _ _ Hf) as ->.
  pose proof (analyze_sent P _ _ _ _ _ Ha) as [_ Hout].
  rewrite main_run, Hf. cbv zeta.
  apply Z.ltb_ge in Hlen. rewrite Hlen, singleBranch_run, Ha.
  destruct r as [[a [e|]]|code]; [| discriminate |].
  - unfold printing. rewrite Hout. reflexivity.
  - apply analyze_exit in Ha as (-> & _ & ->). reflexivity.
Qed.

Lemma fetch_ok_data (w w1 : world) (metrics : bytes) :
  fetchVaultMetrics P w = (Done (metrics, None), w1) ->
  metrics = fst (fetched (roundTrip P (sent w) (vaultRequest P))).
Proof.
  rewrite fetch_run.
  destruct (isEmpty (Getenv P (bs "VAULT_TOKEN"))); [discriminate|].
  destruct (urlError P (bs "GET") (getVaultMetricsURL P)); [discriminate|].
  intros [= H _]. now rewrite H.
Qed.

(** X17.  In every run of [main] the requests sent are none at all, or
    the metrics request followed by narration requests for the chunks of
    the sanitized payload, in chunk order and without gaps; and a run
    that returns has sent one for every chunk. *)
Theorem main_requests_in_order (r : res unit) (w : world) :
  main P init = (r, w) ->
  let metrics := fst (fetched (roundTrip P [] (vaultRequest P))) in
  let chunks := partition (filterNaNMetrics metrics) in
  (sent w = [] \/
   exists k, sent w = vaultRequest P :: firstn k (map (llmRequest P) chunks))
  /\
  (r = Done tt -> sent w = vaultRequest P :: map (llmRequest P) chunks).
Proof.
  intros Hrun metrics chunks. subst chunks. revert Hrun. rewrite main_run.
  destruct (fetchVaultMetrics P init) as [[[m [e|]]|code] w1] eqn:Ef.
  - intros [= <- <-]. split; [|discriminate].
    apply fetch_footprint in Ef
      as (d & err & _ & _ & _ & [(Hs & _ & _)|(Hs & _)]).
    + left. exact Hs.
    + right. exists 0%nat. exact Hs.
  - pose proof (fetch_ok_data _ _ _ Ef) as Hm. simpl in Hm.
    fold metrics in Hm. subst m.
    apply fetch_ok in Ef. subst w1. cbv zeta. unfold partition.
    destruct (threshold <? len (filterNaNMetrics metrics)).
    + rewrite splitBranch_run.
      destruct (analyzeWithLLM P (firstHalf _) [] _)
        as [[[a1 [e1|]]|c1] w2] eqn:E1.
      * apply analyze_sent in E1 as [[Hs|Hs] _]; intros [= <- <-];
          (split; [right|discriminate]).
        -- now exists 0%nat.
        -- now exists 1%nat.
      * apply analyze_ok in E1 as (_ & _ & _ & _ & ->). unfold secondCall.
        destruct (analyzeWithLLM P (secondHalf _) [] _)
          as [[[a2 [e2|]]|c2] w3] eqn:E2.
        -- apply analyze_sent in E2 as [[Hs|Hs] _]; intros [= <- <-];
             (split; [right|discriminate]).
           ++ now exists 1%nat.
           ++ now exists 2%nat.
        -- apply analyze_ok in E2 as (_ & _ & _ & _ & ->).
           intros [= <- <-]. split; [right; now exists 2%nat | reflexivity].
        -- apply analyze_exit in E2 as (_ & _ & ->).
           intros [= <- <-]. split; [right; now exists 1%nat | discriminate].
      * apply analyze_exit in E1 as (_ & _ & ->).
        intros [= <- <-]. split; [right; now exists 0%nat | discriminate].
    + rewrite singleBranch_run.
      destruct (analyzeWithLLM P _ [] _) as [[[a1 [e1|]]|c1] w2] eqn:E1.
      * apply analyze_sent in E1 as [[Hs|Hs] _]; intros [= <- <-];
          (split; [right|discriminate]).
        -- now exists 0%nat.
        -- now exists 1%nat.
      * apply analyze_ok in E1 as (_ & _ & _ & _ & ->).
        intros [= <- <-]. split; [right; now exists 1%nat | reflexivity].
      * apply analyze_exit in E1 as (_ & _ & ->).
        intros [= <- <-]. split; [right; now exists 0%nat | discriminate].
  - now apply fetch_never_exits in Ef.
Qed.

Lemma analyze_stderr (metrics logs : bytes) (w w' : world)
      (x : bytes * option error) :
  analyzeWithLLM P metrics logs w = (Done x, w') -> stderr w' = stderr w.
Proof.
  rewrite analyze_run.
  destruct (isEmpty (Getenv P (bs "LLM_URL"))); [discriminate|].
  destruct (urlError P (bs "POST") (Getenv P (bs "LLM_URL")));
    [now intros [= _ <-]|].
  destruct (isEmpty (Getenv P (bs "LLM_TOKEN"))); now intros [= _ <-].
Qed.

(** X18.  A run of [main] returns or ends with status 1, never another
    status; the standard error stays empty except for the one complaint
    about the missing inference address, which comes only with a missing
    address and status 1; every other error is reported on the standard
    output. *)
Theorem main_exit_status_and_stderr (r : res unit) (w : world) :
  main P init = (r, w) ->
  (r = Done tt \/ r = Exited 1) /\
  (stderr w = [] \/
   (stderr w = [sprintln [bs "LLM_URL environment variable not set"]] /\
    r = Exited 1 /\ isEmpty (Getenv P (bs "LLM_URL")) = true)).
Proof.
  rewrite main_run.
  destruct (fetchVaultMetrics P init) as [[[m [e|]]|code] w1] eqn:Ef.
  - apply fetch_sent in Ef as (_ & _ & He).
    intros [= <- <-]. split; [now right | now left].
  - apply fetch_ok in Ef. subst w1. cbv zeta.
    destruct (threshold <? len (filterNaNMetrics m)).
    + rewrite splitBranch_run.
      destruct (analyzeWithLLM P (firstHalf _) [] _)
        as [[[a1 [e1|]]|c1] w2] eqn:E1.
      * apply analyze_stderr in E1.
        intros [= <- <-]. split; [now right | now left].
      * pose proof (analyze_stderr _ _ _ _ _ E1) as Hs1.
        unfold secondCall.
        destruct (analyzeWithLLM P (secondHalf _) [] _)
          as [[[a2 [e2|]]|c2] w3] eqn:E2.
        -- apply analyze_stderr in E2.
           intros [= <- <-]. split; [now right|left].
           simpl in *. congruence.
        -- apply analyze_stderr in E2.
           intros [= <- <-]. split; [now left|left].
           simpl in *. congruence.
        -- apply analyze_exit in E2 as (-> & Hu & ->).
           intros [= <- <-]. split; [now right|right].
           simpl in *. rewrite Hs1. now repeat split.
      * apply analyze_exit in E1 as (-> & Hu & ->).
        intros [= <- <-]. split; [now right|now right].
    + rewrite singleBranch_run.
      destruct (analyzeWithLLM P _ [] _) as [[[a1 [e1|]]|c1] w2] eqn:E1.
      * apply analyze_stderr in E1.
        intros [= <- <-]. split; [now right | now left].
      * apply analyze_stderr in E1.
        intros [= <- <-]. split; [now left | now left].
      * apply analyze_exit in E1 as (-> & Hu & ->).
        intros [= <- <-]. split; [now right|now right].
  - now apply fetch_never_exits in Ef.
Qed.

End OrchestratorMore.

(** ** The further properties at concrete inputs *)

Lemma filterNaNMetrics_shrinks_witness :
  len (filterNaNMetrics (bs "up 1
rate NaN")) < len (bs "up 1
rate NaN").
Proof.
  apply (proj2 (filterNaNMetrics_shrinks (bs "up 1
rate NaN"))). vm_compute. reflexivity.
Defined.

Lemma chunks_free_of_token_witness :
  Contains (bs "up 1") NaN = false.
Proof.
  apply (chunks_free_of_token (bs "up 1
rate NaN") (bs "up 1")). vm_compute. left. reflexivity.
Defined.

Lemma halves_rejoin_witness :
  firstHalf (bs "up 1
sealed 0") ++ [nl] ++ secondHalf (bs "up 1
sealed 0") = bs "up 1
sealed 0".
Proof.
  apply (halves_rejoin (bs "up 1
sealed 0")). vm_compute. do 4 right. left. reflexivity.
Defined.

Lemma one_line_halves_witness : partition oneLongLine = [[]; oneLongLine].
Proof.
  assert (Hno : ~ In nl oneLongLine).
  { intros [H|H]; [discriminate|]. apply repeat_spec in H. discriminate. }
  destruct (one_line_halves oneLongLine Hno) as (_ & _ & H).
  apply H. vm_compute. reflexivity.
Defined.


Lemma extractSummary_keeps_response_witness :
  extractSummary healthyPlatform (bs "{}") <> [].
Proof.
  apply (extractSummary_keeps_response healthyPlatform (bs "{}")).
  vm_compute. discriminate.
Defined.

Lemma analyze_footprint_witness :
  stdout (snd (analyzeWithLLM failingPlatform (bs "up 1") [] init)) = [].
Proof.
  apply (analyze_footprint failingPlatform (bs "up 1") [] init
           (snd (analyzeWithLLM failingPlatform (bs "up 1") [] init))
           (fst (analyzeWithLLM failingPlatform (bs "up 1") [] init))).
  vm_compute. reflexivity.
Defined.

Lemma getLLMAPIURL_never_empty_witness :
  snd (getLLMAPIURL healthyPlatform init) = init /\
  stderr (snd (getLLMAPIURL noAddressPlatform init))
  = [bs "LLM_URL environment variable not set
"].
Proof.
  split.
  - apply (proj1 (getLLMAPIURL_never_empty healthyPlatform init
                    (snd (getLLMAPIURL healthyPlatform init))
                    (fst (getLLMAPIURL healthyPlatform init)) eq_refl)
                 (bs "http://llm/v1")).
    vm_compute. reflexivity.
  - apply (proj2 (getLLMAPIURL_never_empty noAddressPlatform init
                    (snd (getLLMAPIURL noAddressPlatform init))
                    (fst (getLLMAPIURL noAddressPlatform init)) eq_refl) 1).
    vm_compute. reflexivity.
Defined.

Lemma missing_llm_token_sends_nothing_witness :
  analyzeWithLLM noKeyPlatform (bs "up 1") [] init
  = (Done ([], Some (bs "LLM_TOKEN environment variable not set")), init) /\
  fst (main noKeyPlatform init) = Exited 1.
Proof.
  destruct (missing_llm_token_sends_nothing noKeyPlatform
              eq_refl eq_refl eq_refl) as [Ha Hm].
  split; [apply Ha|].
  apply (Hm (fst (main noKeyPlatform init)) (snd (main noKeyPlatform init))).
  vm_compute. reflexivity.
Defined.

Lemma fetch_footprint_witness :
  exists data err,
    fst (fetchVaultMetrics noTokenPlatform init) = Done (data, err) /\
    err <> None.
Proof.
  destruct (fetch_footprint noTokenPlatform init
              (snd (fetchVaultMetrics noTokenPlatform init))
              (fst (fetchVaultMetrics noTokenPlatform init)) eq_refl)
    as (data & err & Hr & _ & _ & [(_ & _ & He)|(_ & Ht)]).
  - now exists data, err.
  - vm_compute in Ht. discriminate.
Defined.

Lemma fetch_failure_aborts_witness :
  main truncatedPlatform init
  = (Exited 1,
     {| sent := [vaultRequest truncatedPlatform];
        stdout := [bs "Fetching Vault metrics...
";
                   bs "Error fetching metrics: unexpected EOF
"];
        stderr := [] |}).
Proof.
  exact (proj1 (fetch_failure_aborts truncatedPlatform (bs "up")
                  (bs "unexpected EOF")
                  (sending init (vaultRequest truncatedPlatform)) eq_refl)).
Defined.

Lemma single_chunk_success_witness :
  main healthyPlatform init
  = (Done tt,
     {| sent := [vaultRequest healthyPlatform;
                 llmRequest healthyPlatform (bs "up 1")];
        stdout := [bs "Fetching Vault metrics...
";
                   bs "len(filteredMetrics): 4
";
                   bs "analysis data for all metrics...
";
                   bs "LLM Analysis Result:
";
                   bs "all good
"];
        stderr := [] |}).
Proof.
  refine (single_chunk_success healthyPlatform (bs "up 1") (bs "all good")
            (sending init (vaultRequest healthyPlatform))
            (snd (analyzeWithLLM healthyPlatform (bs "up 1") []
                    (printing
                       (atBranch (sending init (vaultRequest healthyPlatform))
                                 (bs "up 1"))
                       (bs "analysis data for all metrics..." ++ [nl]))))
            _ _ _).
  - vm_compute. reflexivity.
  - vm_compute. discriminate.
  - vm_compute. reflexivity.
Defined.

Lemma two_chunk_success_witness :
  stdout (snd (main twoChunkPlatform init))
  = [bs "Fetching Vault metrics...
";
     bs "len(filteredMetrics): 5002
";
     bs "analysis data for first half...
";
     bs "analysis data for second half...
";
     bs "LLM Analysis Result (First Half):
";
     bs "first fine
";
     bs "
LLM Analysis Result (Second Half):
";
     bs "second fine
"].
Proof.
  rewrite (two_chunk_success twoChunkPlatform longMetrics
             (bs "first fine") (bs "second fine")
             (sending init (vaultRequest twoChunkPlatform))
             (sending (atFirstHalf
                         (sending init (vaultRequest twoChunkPlatform))
                         longMetrics)
                      (llmRequest twoChunkPlatform (firstHalf longMetrics)))
             (sending
                (printing
                   (sending (atFirstHalf
                               (sending init (vaultRequest twoChunkPlatform))
                               longMetrics)
                            (llmRequest twoChunkPlatform
                                        (firstHalf longMetrics)))
                   (bs "analysis data for second half..." ++ [nl]))
                (llmRequest twoChunkPlatform (secondHalf longMetrics)))).
  - vm_compute. reflexivity.
  - vm_compute. reflexivity.
  - vm_compute. reflexivity.
  - vm_compute. reflexivity.
  - vm_compute. reflexivity.
Defined.

Lemma second_failure_discards_first_witness :
  stdout (snd (main secondFailsPlatform init))
  = [bs "Fetching Vault metrics...
";
     bs "len(filteredMetrics): 5002
";
     bs "analysis data for first half...
";
     bs "analysis data for second half...
";
     bs "Error analyzing second half with LLM: timeout
"].
Proof.
  rewrite (second_failure_discards_first secondFailsPlatform longMetrics
             (bs "first fine")
             (sending init (vaultRequest secondFailsPlatform))
             (sending (atFirstHalf
                         (sending init (vaultRequest secondFailsPlatform))
                         longMetrics)
                      (llmRequest secondFailsPlatform (firstHalf longMetrics)))
             (sending
                (printing
                   (sending (atFirstHalf
                               (sending init
                                        (vaultRequest secondFailsPlatform))
                               longMetrics)
                            (llmRequest secondFailsPlatform
                                        (firstHalf longMetrics)))
                   (bs "analysis data for second half..." ++ [nl]))
                (llmRequest secondFailsPlatform (secondHalf longMetrics)))
             (Done ([], Some (bs "timeout")))).
  - vm_compute. reflexivity.
  - vm_compute. reflexivity.
  - vm_compute. reflexivity.
  - vm_compute. reflexivity.
  - vm_compute. reflexivity.
  - reflexivity.
Defined.

Lemma single_chunk_failure_witness :
  stdout (snd (main busyPlatform init))
  = [bs "Fetching Vault metrics...
";
     bs "len(filteredMetrics): 4
";
     bs "analysis data for all metrics...
";
     bs "Error analyzing metrics with LLM: LLM API error: 503 Service Unavailable
overloaded
"].
Proof.
  rewrite (single_chunk_failure busyPlatform (bs "up 1")
             (sending init (vaultRequest busyPlatform))
             (snd (analyzeWithLLM busyPlatform (bs "up 1") []
                     (printing
                        (atBranch (sending init (vaultRequest busyPlatform))
                                  (bs "up 1"))
                        (bs "analysis data for all metrics..." ++ [nl]))))
             (fst (analyzeWithLLM busyPlatform (bs "up 1") []
                     (printing
                        (atBranch (sending init (vaultRequest busyPlatform))
                                  (bs "up 1"))
                        (bs "analysis data for all metrics..." ++ [nl]))))).
  - vm_compute. reflexivity.
  - vm_compute. reflexivity.
  - vm_compute. discriminate.
  - vm_compute. reflexivity.
  - vm_compute. reflexivity.
Defined.

Lemma main_requests_in_order_witness :
  sent (snd (main twoChunkPlatform init))
  = [vaultRequest twoChunkPlatform;
     llmRequest twoChunkPlatform (repeat x61 5000);
     llmRequest twoChunkPlatform [x62]].
Proof.
  destruct (main_requests_in_order twoChunkPlatform
              (fst (main twoChunkPlatform init))
              (snd (main twoChunkPlatform init)))
    as [_ H].
  - vm_compute. reflexivity.
  - rewrite H; vm_compute; reflexivity.
Defined.

Lemma main_exit_status_and_stderr_witness :
  fst (main noAddressPlatform init) = Done tt \/
  fst (main noAddressPlatform init) = Exited 1.
Proof.
  apply (main_exit_status_and_stderr noAddressPlatform
           (fst (main noAddressPlatform init))
           (snd (main noAddressPlatform init))).
  vm_compute. reflexivity.
Defined.
